(** * The OCI surrogate driver: state poller and resource lifecycle calls

    A shallow embedding of [pkg/ocisurrogate/driver_oci.go].  The remote
    service (the OCI SDK clients) is a record of state-passing operations
    over an abstract world [W]; every SDK call a driver function issues is
    recorded in the trace it returns, so that the number and the order of
    remote calls can be stated.  A Go run-time panic (index out of range,
    nil pointer dereference) is an outcome of its own, distinct from a
    returned [error].  The driver's [log.Printf] lines write to the log
    only and are left out. *)

From Stdlib Require Import ZArith.
From stdpp Require Import base option list strings gmap.

Local Open Scope string_scope.
Local Open Scope list_scope.

(** ** Go base types *)

Module Go.

(** [int] is 64 bits wide; [i++] wraps around. *)
Definition int := Z.
Definition min_int : Z := - 2 ^ 63.
Definition max_int : Z := 2 ^ 63 - 1.
Definition int_wrap (z : Z) : int := ((z + 2 ^ 63) mod 2 ^ 64 - 2 ^ 63)%Z.
Definition int_add (a b : int) : int := int_wrap (a + b).

(** [time.Duration] counts nanoseconds. *)
Definition Duration := Z.
Definition Second : Duration := 1000000000%Z.

(** Arguments handed to [fmt.Errorf]; the error keeps its format string
    and its arguments, the rendering being that of package [fmt]. *)
Inductive arg (E : Type) : Type :=
| ArgString (s : string)
| ArgStrings (l : list string)
| ArgInt (z : Z)
| ArgError (e : E).
Arguments ArgString {E} s.
Arguments ArgStrings {E} l.
Arguments ArgInt {E} z.
Arguments ArgError {E} e.

(** A non-nil [error] value. *)
#[warnings="-register-all"] Inductive error : Type :=
| ErrRemote (msg : string)
| ErrorsNew (msg : string)
| Errorf (format : string) (args : list (arg error)).

(** What a call comes to: it returns, or it panics. *)
Inductive res (A : Type) : Type :=
| Ret (a : A)
| Panic (msg : string)
| OutOfFuel.
Arguments Ret {A} a.
Arguments Panic {A} msg.
Arguments OutOfFuel {A}.

Definition index_out_of_range : string :=
  "runtime error: index out of range".
Definition nil_dereference : string :=
  "runtime error: invalid memory address or nil pointer dereference".

(** [context.Context] values the driver passes around. *)
Inductive Context : Type :=
| context_TODO
| context_Background
| context_WithCancel (key : nat).

End Go.
Import Go.

(** ** The SDK's request and response types (package [core]) *)

Module core.

Record Image := {
  Image_Id : option string;
  Image_DisplayName : option string;
  Image_LifecycleState : string }.

Record ListImagesRequest := {
  ListImages_CompartmentId : option string;
  ListImages_DisplayName : option string }.

Record ListImagesResponse := { ListImages_Items : list Image }.

Inductive InstanceSourceDetails : Type :=
| InstanceSourceViaImageDetails (ImageId : option string)
                                (BootVolumeSizeInGBs : option Z)
| InstanceSourceViaBootVolumeDetails (BootVolumeId : option string).

Record CreateVnicDetails := { SubnetId : option string }.

Record LaunchInstanceDetails := {
  Launch_AvailabilityDomain : option string;
  Launch_CompartmentId : option string;
  Launch_Shape : option string;
  Launch_Metadata : gmap string string;
  Launch_CreateVnicDetails : option CreateVnicDetails;
  Launch_SourceDetails : option InstanceSourceDetails;
  Launch_DisplayName : option string }.

Record LaunchInstanceRequest := {
  LaunchInstanceDetails_of : LaunchInstanceDetails }.

Record Instance := {
  Instance_Id : option string;
  Instance_LifecycleState : string }.

Record ListBootVolumeAttachmentsRequest := {
  ListBVA_AvailabilityDomain : option string;
  ListBVA_CompartmentId : option string;
  ListBVA_InstanceId : option string }.

Record BootVolumeAttachment := {
  BVA_Id : option string;
  BVA_BootVolumeId : option string }.

Record ListBootVolumeAttachmentsResponse := {
  ListBVA_Items : list BootVolumeAttachment }.

Inductive BootVolumeSourceDetails : Type :=
| BootVolumeSourceFromBootVolumeDetails (Id : option string).

Record CreateBootVolumeDetails := {
  CreateBV_AvailabilityDomain : option string;
  CreateBV_CompartmentId : option string;
  CreateBV_SourceDetails : BootVolumeSourceDetails;
  CreateBV_SizeInGBs : option Z }.

Record CreateBootVolumeRequest := {
  CreateBootVolumeDetails_of : CreateBootVolumeDetails }.

Record BootVolume := {
  BootVolume_Id : option string;
  BootVolume_LifecycleState : string }.

Record ListVnicAttachmentsRequest := {
  ListVnic_InstanceId : option string;
  ListVnic_CompartmentId : option string }.

Record VnicAttachment := { VnicAttachment_VnicId : option string }.

Record ListVnicAttachmentsResponse := {
  ListVnic_Items : list VnicAttachment }.

Record GetVnicRequest := { GetVnic_VnicId : option string }.

Record Vnic := {
  PrivateIp : option string;
  PublicIp : option string }.

Record VolumeAttachment := {
  VolumeAttachment_Id : option string;
  VolumeAttachment_LifecycleState : string }.

(** One SDK call, with the context and the request it was given. *)
Inductive call : Type :=
| ListImages (ctx : Context) (req : ListImagesRequest)
| LaunchInstance (ctx : Context) (req : LaunchInstanceRequest)
| ListBootVolumeAttachments (ctx : Context)
                            (req : ListBootVolumeAttachmentsRequest)
| CreateBootVolume (ctx : Context) (req : CreateBootVolumeRequest)
| ListVnicAttachments (ctx : Context) (req : ListVnicAttachmentsRequest)
| GetVnic (ctx : Context) (req : GetVnicRequest)
| GetImage (ctx : Context) (ImageId : option string)
| GetInstance (ctx : Context) (InstanceId : option string)
| GetBootVolume (ctx : Context) (BootVolumeId : option string)
| GetVolumeAttachment (ctx : Context) (VolumeAttachmentId : option string).

End core.

(** ** The configuration fields the driver reads (type [Config]) *)

Record Config := {
  UsePrivateIP : bool;
  AvailabilityDomain : string;
  CompartmentID : string;
  BaseImageID : string;
  BaseImageName : string;
  Shape : string;
  ImageName : string;
  BootVolumeSizeInGBs : Z;
  InstanceName : string;
  Metadata : option (gmap string string);
  UserData : string;
  SubnetID : string }.

(** ** Computations against the remote service *)

(** The world also moves on while the process sleeps: [time_Sleep d] is
    what [time.Sleep(d)] leaves of it. *)
Class World (W : Type) := { time_Sleep : Duration -> W -> W }.

Section Driver.

Context {W : Type}.

(** A remote operation answers with a value or with the SDK's error
    (kept by its message) and moves the world on. *)
Definition remote (A : Type) : Type := W -> (A + string) * W.

(** A driver computation: its outcome, the world it leaves, and the SDK
    calls it made, oldest first. *)
Definition Drv (A : Type) : Type := W -> res A * W * list core.call.

Definition ret {A} (a : A) : Drv A := fun w => (Ret a, w, []).

Definition panic {A} (msg : string) : Drv A := fun w => (Panic msg, w, []).

Definition bind {A B} (m : Drv A) (k : A -> Drv B) : Drv B :=
  fun w =>
    match m w with
    | (Ret a, w1, t1) =>
        match k a w1 with (r, w2, t2) => (r, w2, t1 ++ t2) end
    | (Panic msg, w1, t1) => (Panic msg, w1, t1)
    | (OutOfFuel, w1, t1) => (OutOfFuel, w1, t1)
    end.

(** Issue one SDK call and log it. *)
Definition invoke {A} (c : core.call) (op : remote A) : Drv (A + error) :=
  fun w =>
    match op w with
    | (inl a, w1) => (Ret (inl a), w1, [c])
    | (inr msg, w1) => (Ret (inr (ErrRemote msg)), w1, [c])
    end.

(** [*p]: dereferencing a nil pointer panics. *)
Definition deref {A} (p : option A) : Drv A :=
  match p with
  | Some a => ret a
  | None => panic nil_dereference
  end.

(** [s[i]]: indexing past the end of a slice panics. *)
Definition index {A} (s : list A) (i : nat) : Drv A :=
  match s !! i with
  | Some a => ret a
  | None => panic index_out_of_range
  end.

End Driver.

Notation "'let!' x ':=' m 'in' k" := (bind m (fun x => k))
  (at level 10, x name, m at level 100, k at level 200).

(** ** The SDK clients held by [driverOCI] *)

Record ComputeClient (W : Type) := {
  ListImages :
    Context -> core.ListImagesRequest -> @remote W core.ListImagesResponse;
  LaunchInstance :
    Context -> core.LaunchInstanceRequest -> @remote W core.Instance;
  ListBootVolumeAttachments :
    Context -> core.ListBootVolumeAttachmentsRequest ->
    @remote W core.ListBootVolumeAttachmentsResponse;
  ListVnicAttachments :
    Context -> core.ListVnicAttachmentsRequest ->
    @remote W core.ListVnicAttachmentsResponse;
  GetImage : Context -> option string -> @remote W core.Image;
  GetInstance : Context -> option string -> @remote W core.Instance;
  GetVolumeAttachment :
    Context -> option string -> @remote W core.VolumeAttachment }.

Record BlockstorageClient (W : Type) := {
  CreateBootVolume :
    Context -> core.CreateBootVolumeRequest -> @remote W core.BootVolume;
  GetBootVolume : Context -> option string -> @remote W core.BootVolume }.

Record VirtualNetworkClient (W : Type) := {
  GetVnic : Context -> core.GetVnicRequest -> @remote W core.Vnic }.

Arguments ListImages {W}.
Arguments LaunchInstance {W}.
Arguments ListBootVolumeAttachments {W}.
Arguments ListVnicAttachments {W}.
Arguments GetImage {W}.
Arguments GetInstance {W}.
Arguments GetVolumeAttachment {W}.
Arguments CreateBootVolume {W}.
Arguments GetBootVolume {W}.
Arguments GetVnic {W}.

Record driverOCI (W : Type) := {
  computeClient : ComputeClient W;
  blockstorageClient : BlockstorageClient W;
  vcnClient : VirtualNetworkClient W;
  cfg : Config }.

Arguments computeClient {W}.
Arguments blockstorageClient {W}.
Arguments vcnClient {W}.
Arguments cfg {W}.

(** ** The state poller *)

(** [stringSliceContains]: whether [value] occurs in [slice]. *)
Fixpoint stringSliceContains (slice : list string) (value : string) : bool :=
  match slice with
  | [] => false
  | elem :: rest =>
      if String.eqb elem value then true else stringSliceContains rest value
  end.

(** What the poller does, in order: it calls the fetch function (which
    makes the listed SDK calls) or it sleeps. *)
Inductive event : Type :=
| EvFetch (id : string) (calls : list core.call)
| EvSleep (d : Duration).

Definition unexpected_state_format : string :=
  "Unexpected resource state %q, expecting a waiting state %s or terminal state  %q ".

Definition max_retries_format : string :=
  "Maximum number of retries (%d) exceeded; resource did not reach state %q".

Section Poller.

Context {W : Type} `{World W}.

Variable getResourceState : string -> @Drv W (string + error).
Variable id : string.
Variable waitStates : list string.
Variable terminalState : string.
Variable maxRetries : int.
Variable waitDuration : Duration.

(** The [for] loop of [waitForResourceToReachState], entered with loop
    counter [i]; [fuel] bounds the number of times the loop condition is
    evaluated.  The result is the returned [error], [None] being [nil]. *)
Fixpoint poll_loop (fuel : nat) (i : int) (w : W)
  : res (option error) * W * list event :=
  match fuel with
  | O => (OutOfFuel, w, [])
  | S fuel' =>
      if (maxRetries =? 0)%Z || (i <? maxRetries)%Z then
        match getResourceState id w with
        | (Ret (inr err), w1, cs) => (Ret (Some err), w1, [EvFetch id cs])
        | (Ret (inl state), w1, cs) =>
            if stringSliceContains waitStates state then
              match poll_loop fuel' (int_add i 1%Z)
                              (time_Sleep waitDuration w1) with
              | (r, w2, t) =>
                  (r, w2, EvFetch id cs :: EvSleep waitDuration :: t)
              end
            else if String.eqb state terminalState then
              (Ret None, w1, [EvFetch id cs])
            else
              (Ret (Some (Errorf unexpected_state_format
                            [ArgString state; ArgStrings waitStates;
                             ArgString terminalState])),
               w1, [EvFetch id cs])
        | (Panic msg, w1, cs) => (Panic msg, w1, [EvFetch id cs])
        | (OutOfFuel, w1, cs) => (OutOfFuel, w1, [EvFetch id cs])
        end
      else
        (Ret (Some (Errorf max_retries_format
                      [ArgInt maxRetries; ArgString terminalState])),
         w, [])
  end.

Definition waitForResourceToReachState (fuel : nat) (w : W)
  : res (option error) * W * list event :=
  poll_loop fuel 0%Z w.

End Poller.

(** ** The four wait operations *)

Section Waits.

Context {W : Type} `{World W}.
Variable d : driverOCI W.

(** The closure each wait operation hands to the poller: one SDK get,
    whose error is returned as it is, else the lifecycle state. *)
Definition state_of {A} (c : core.call) (op : @remote W A)
    (LifecycleState : A -> string) : @Drv W (string + error) :=
  let! r := invoke c op in
  match r with
  | inr err => ret (inr err)
  | inl resource => ret (inl (LifecycleState resource))
  end.

(** The fetch functions of the four wait operations. *)
Definition image_state (ctx : Context) (id : string)
  : string -> @Drv W (string + error) :=
  fun _ => state_of (core.GetImage ctx (Some id))
                    (GetImage (computeClient d) ctx (Some id))
                    core.Image_LifecycleState.

Definition instance_state (ctx : Context) (id : string)
  : string -> @Drv W (string + error) :=
  fun _ => state_of (core.GetInstance ctx (Some id))
                    (GetInstance (computeClient d) ctx (Some id))
                    core.Instance_LifecycleState.

Definition boot_volume_state (ctx : Context) (id : string)
  : string -> @Drv W (string + error) :=
  fun _ => state_of (core.GetBootVolume ctx (Some id))
                    (GetBootVolume (blockstorageClient d) ctx (Some id))
                    core.BootVolume_LifecycleState.

Definition volume_attachment_state (ctx : Context) (id : string)
  : string -> @Drv W (string + error) :=
  fun _ => state_of (core.GetVolumeAttachment ctx (Some id))
                    (GetVolumeAttachment (computeClient d) ctx (Some id))
                    core.VolumeAttachment_LifecycleState.

Definition WaitForImageCreation (ctx : Context) (id : string) :=
  waitForResourceToReachState
    (image_state ctx id)
    id
    ["PROVISIONING"]
    "AVAILABLE"
    0%Z
    (5 * Second)%Z.

Definition WaitForInstanceState (ctx : Context) (id : string)
    (waitStates : list string) (terminalState : string) :=
  waitForResourceToReachState
    (instance_state ctx id)
    id
    waitStates
    terminalState
    0%Z
    (5 * Second)%Z.

Definition WaitForBootVolumeState (ctx : Context) (id : string)
    (waitStates : list string) (terminalState : string) :=
  waitForResourceToReachState
    (boot_volume_state ctx id)
    id
    waitStates
    terminalState
    0%Z
    (5 * Second)%Z.

Definition WaitForVolumeAttachmentState (ctx : Context) (id : string)
    (waitStates : list string) (terminalState : string) :=
  waitForResourceToReachState
    (volume_attachment_state ctx id)
    id
    waitStates
    terminalState
    0%Z
    (5 * Second)%Z.

End Waits.

(** ** Instance creation, boot volume clone, instance address *)

Section Lifecycle.

Context {W : Type}.
Variable d : driverOCI W.

Definition nonempty (s : string) : bool := negb (String.eqb s "").

(** The metadata bundle of [CreateInstance]: the key, overridden by the
    configured metadata, overridden by the user data. *)
Definition instance_metadata (publicKey : string) : gmap string string :=
  let metadata : gmap string string :=
    {[ "ssh_authorized_keys" := publicKey ]} in
  let metadata :=
    match Metadata (cfg d) with
    | Some m => m ∪ metadata
    | None => metadata
    end in
  if nonempty (UserData (cfg d))
  then <[ "user_data" := UserData (cfg d) ]> metadata
  else metadata.

Definition list_images_request : core.ListImagesRequest :=
  {| core.ListImages_CompartmentId := Some (CompartmentID (cfg d));
     core.ListImages_DisplayName := Some (BaseImageName (cfg d)) |}.

(** The image id [CreateInstance] settles on: the configured id, or the
    id of the first image listed under the configured name. *)
Definition resolve_image : @Drv W (string + error) :=
  let imageId := BaseImageID (cfg d) in
  if nonempty (BaseImageName (cfg d)) then
    let! r := invoke (core.ListImages context_TODO list_images_request)
                     (ListImages (computeClient d) context_TODO
                                 list_images_request) in
    match r with
    | inr err => ret (inr err)
    | inl imageIdList =>
        let! first := index (core.ListImages_Items imageIdList) 0 in
        let! imageId := deref (core.Image_Id first) in
        ret (inl imageId)
    end
  else ret (inl imageId).

Definition source_details (imageId surrogateVolumeId : string)
  : core.InstanceSourceDetails :=
  let sourcedetails :=
    core.InstanceSourceViaImageDetails
      (Some imageId) (Some (BootVolumeSizeInGBs (cfg d))) in
  if nonempty surrogateVolumeId
  then core.InstanceSourceViaBootVolumeDetails (Some surrogateVolumeId)
  else sourcedetails.

Definition launch_request (publicKey imageId surrogateVolumeId : string)
  : core.LaunchInstanceRequest :=
  {| core.LaunchInstanceDetails_of :=
       {| core.Launch_AvailabilityDomain :=
            Some (AvailabilityDomain (cfg d));
          core.Launch_CompartmentId := Some (CompartmentID (cfg d));
          core.Launch_Shape := Some (Shape (cfg d));
          core.Launch_Metadata := instance_metadata publicKey;
          core.Launch_CreateVnicDetails :=
            Some {| core.SubnetId := Some (SubnetID (cfg d)) |};
          core.Launch_SourceDetails :=
            Some (source_details imageId surrogateVolumeId);
          core.Launch_DisplayName :=
            if nonempty (InstanceName (cfg d))
            then Some (InstanceName (cfg d)) else None |} |}.

(** [CreateInstance]; the [ctx] it is given is not the one it passes on:
    both SDK calls get [context.TODO()]. *)
Definition CreateInstance (ctx : Context)
    (publicKey surrogateVolumeId : string) : @Drv W (string + error) :=
  let! r := resolve_image in
  match r with
  | inr err => ret (inr err)
  | inl imageId =>
      let req := launch_request publicKey imageId surrogateVolumeId in
      let! r := invoke (core.LaunchInstance context_TODO req)
                       (LaunchInstance (computeClient d) context_TODO req) in
      match r with
      | inr err => ret (inr err)
      | inl instance =>
          let! id := deref (core.Instance_Id instance) in
          ret (inl id)
      end
  end.

Definition list_boot_volume_attachments_request (InstanceId : string)
  : core.ListBootVolumeAttachmentsRequest :=
  {| core.ListBVA_AvailabilityDomain := Some (AvailabilityDomain (cfg d));
     core.ListBVA_CompartmentId := Some (CompartmentID (cfg d));
     core.ListBVA_InstanceId := Some InstanceId |}.

Definition create_boot_volume_request (source : option string)
  : core.CreateBootVolumeRequest :=
  {| core.CreateBootVolumeDetails_of :=
       {| core.CreateBV_AvailabilityDomain :=
            Some (AvailabilityDomain (cfg d));
          core.CreateBV_CompartmentId := Some (CompartmentID (cfg d));
          core.CreateBV_SourceDetails :=
            core.BootVolumeSourceFromBootVolumeDetails source;
          core.CreateBV_SizeInGBs := Some (BootVolumeSizeInGBs (cfg d)) |} |}.

Definition CreateBootClone (ctx : Context) (InstanceId : string)
  : @Drv W (string + error) :=
  let lreq := list_boot_volume_attachments_request InstanceId in
  let! r := invoke (core.ListBootVolumeAttachments ctx lreq)
                   (ListBootVolumeAttachments (computeClient d) ctx lreq) in
  match r with
  | inr err0 => ret (inr err0)
  | inl BootVolumeDetails =>
      let! first := index (core.ListBVA_Items BootVolumeDetails) 0 in
      let req := create_boot_volume_request (core.BVA_BootVolumeId first) in
      let! r := invoke (core.CreateBootVolume ctx req)
                       (CreateBootVolume (blockstorageClient d) ctx req) in
      match r with
      | inr err => ret (inr err)
      | inl res =>
          let! id := deref (core.BootVolume_Id res) in
          ret (inl id)
      end
  end.

Definition list_vnic_attachments_request (id : string)
  : core.ListVnicAttachmentsRequest :=
  {| core.ListVnic_InstanceId := Some id;
     core.ListVnic_CompartmentId := Some (CompartmentID (cfg d)) |}.

Definition zero_vnics : error := ErrorsNew "instance has zero VNICs".

Definition GetInstanceIP (ctx : Context) (id : string)
  : @Drv W (string + error) :=
  let lreq := list_vnic_attachments_request id in
  let! r := invoke (core.ListVnicAttachments ctx lreq)
                   (ListVnicAttachments (computeClient d) ctx lreq) in
  match r with
  | inr err => ret (inr err)
  | inl vnics =>
      if (length (core.ListVnic_Items vnics) =? 0)%nat then
        ret (inr zero_vnics)
      else
        let! first := index (core.ListVnic_Items vnics) 0 in
        let req :=
          {| core.GetVnic_VnicId := core.VnicAttachment_VnicId first |} in
        let! r := invoke (core.GetVnic ctx req)
                         (GetVnic (vcnClient d) ctx req) in
        match r with
        | inr err =>
            ret (inr (Errorf "Error getting VNIC details: %s"
                             [ArgError err]))
        | inl vnic =>
            if UsePrivateIP (cfg d) then
              let! ip := deref (core.PrivateIp vnic) in
              ret (inl ip)
            else
              match core.PublicIp vnic with
              | None =>
                  ret (inr (Errorf "Error getting VNIC Public Ip for: %s"
                                   [ArgString id]))
              | Some ip => ret (inl ip)
              end
        end
  end.

End Lifecycle.

(** ** Vocabulary of the statements *)

(** The shape of a poller trace: fetches and sleeps, in order. *)
Inductive step : Type :=
| Fetch
| Sleep (d : Duration).

Definition step_of (e : event) : step :=
  match e with
  | EvFetch _ _ => Fetch
  | EvSleep d => Sleep d
  end.

Definition steps (t : list event) : list step := map step_of t.

(** Number of fetch invocations in a trace. *)
Fixpoint fetches (t : list event) : nat :=
  match t with
  | [] => 0
  | EvFetch _ _ :: t' => S (fetches t')
  | EvSleep _ :: t' => fetches t'
  end.

(** [n] rounds of fetch-then-sleep. *)
Fixpoint rounds (n : nat) (d : Duration) : list step :=
  match n with
  | O => []
  | S n' => Fetch :: Sleep d :: rounds n' d
  end.

(** The loop counter after [n] increments. *)
Fixpoint incr_n (n : nat) (i : int) : int :=
  match n with
  | O => i
  | S n' => incr_n n' (int_add i 1%Z)
  end.

Definition waiting (waitStates : list string) (state : string) : Prop :=
  stringSliceContains waitStates state = true.

Definition unexpected_state (state : string) (waitStates : list string)
    (terminalState : string) : error :=
  Errorf unexpected_state_format
         [ArgString state; ArgStrings waitStates; ArgString terminalState].

Definition max_retries_exceeded (maxRetries : int) (terminalState : string)
  : error :=
  Errorf max_retries_format [ArgInt maxRetries; ArgString terminalState].

(** An error names a string when it is among its format arguments, alone or
    in a slice. *)
Definition names_string (e : error) (s : string) : Prop :=
  match e with
  | Errorf _ args => In (ArgString s) args
  | _ => False
  end.


Definition names_int (e : error) (z : Z) : Prop :=
  match e with
  | Errorf _ args => In (ArgInt z) args
  | _ => False
  end.

Section Observations.

Context {W : Type} `{World W}.
Variable getResourceState : string -> @Drv W (string + error).
Variable id : string.
Variable waitDuration : Duration.

(** [observes w states w']: from world [w], successive fetches, each
    followed by one sleep of [waitDuration], report [states] and lead to
    world [w']. *)
Inductive observes : W -> list string -> W -> Prop :=
| observes_nil w : observes w [] w
| observes_cons w state w1 cs states w' :
    getResourceState id w = (Ret (inl state), w1, cs) ->
    observes (time_Sleep waitDuration w1) states w' ->
    observes w (state :: states) w'.

(** The next fetch from [w] reports [state] and leaves world [w']. *)
Definition fetch_reports (w : W) (state : string) (w' : W) : Prop :=
  exists cs, getResourceState id w = (Ret (inl state), w', cs).

(** The next fetch from [w] fails with [err]. *)
Definition fetch_fails (w : W) (err : error) (w' : W) : Prop :=
  exists cs, getResourceState id w = (Ret (inr err), w', cs).

End Observations.

(** ** Worlds to run the driver in *)

(** A resource whose successive states are scripted; sleeping changes
    nothing. *)
Module Script.

Definition world := list (string + error).

#[global] Instance world_World : World world :=
  {| time_Sleep := fun _ w => w |}.

Definition getResourceState (_ : string) : @Drv world (string + error) :=
  fun w =>
    match w with
    | [] => (Ret (inr (ErrRemote "NotFound")), [], [])
    | r :: w' => (Ret r, w', [])
    end.

Definition states (l : list string) : world := map inl l.

End Script.

(** A service that gives the same answers whenever asked. *)
Module Fixed.

Record answers := {
  images : list core.Image + string;
  launched : core.Instance + string;
  attachments : list core.BootVolumeAttachment + string;
  cloned : core.BootVolume + string;
  vnics : list core.VnicAttachment + string;
  vnic : core.Vnic + string }.

#[global] Instance unit_World : World unit :=
  {| time_Sleep := fun _ w => w |}.

Definition answer {A B} (f : A -> B) (a : A + string) : @remote unit B :=
  fun w => match a with inl x => (inl (f x), w) | inr e => (inr e, w) end.

Definition unavailable {A} : @remote unit A :=
  fun w => (inr "ServiceUnavailable", w).

Definition compute (a : answers) : ComputeClient unit :=
  {| ListImages := fun _ _ =>
       answer (fun l => {| core.ListImages_Items := l |}) (images a);
     LaunchInstance := fun _ _ => answer (fun i => i) (launched a);
     ListBootVolumeAttachments := fun _ _ =>
       answer (fun l => {| core.ListBVA_Items := l |}) (attachments a);
     ListVnicAttachments := fun _ _ =>
       answer (fun l => {| core.ListVnic_Items := l |}) (vnics a);
     GetImage := fun _ _ => unavailable;
     GetInstance := fun _ _ => unavailable;
     GetVolumeAttachment := fun _ _ => unavailable |}.

Definition blockstorage (a : answers) : BlockstorageClient unit :=
  {| CreateBootVolume := fun _ _ => answer (fun v => v) (cloned a);
     GetBootVolume := fun _ _ => unavailable |}.

Definition vcn (a : answers) : VirtualNetworkClient unit :=
  {| GetVnic := fun _ _ => answer (fun v => v) (vnic a) |}.

Definition driver (c : Config) (a : answers) : driverOCI unit :=
  {| computeClient := compute a;
     blockstorageClient := blockstorage a;
     vcnClient := vcn a;
     cfg := c |}.

Definition config (name id : string) (private : bool) : Config :=
  {| UsePrivateIP := private;
     AvailabilityDomain := "AD-1";
     CompartmentID := "ocid1.compartment";
     BaseImageID := id;
     BaseImageName := name;
     Shape := "VM.Standard2.1";
     ImageName := "packer-image";
     BootVolumeSizeInGBs := 50;
     InstanceName := "";
     Metadata := None;
     UserData := "";
     SubnetID := "ocid1.subnet" |}.

Definition image (id : string) : core.Image :=
  {| core.Image_Id := Some id;
     core.Image_DisplayName := Some "img";
     core.Image_LifecycleState := "AVAILABLE" |}.

Definition instance (id : string) : core.Instance :=
  {| core.Instance_Id := Some id;
     core.Instance_LifecycleState := "PROVISIONING" |}.

Definition volume (id : string) : core.BootVolume :=
  {| core.BootVolume_Id := Some id;
     core.BootVolume_LifecycleState := "PROVISIONING" |}.

Definition default : answers :=
  {| images := inl [image "img-1"; image "img-2"];
     launched := inl (instance "i-1");
     attachments :=
       inl [ {| core.BVA_Id := Some "bva-1";
                core.BVA_BootVolumeId := Some "bv-1" |} ];
     cloned := inl (volume "bv-2");
     vnics := inl [ {| core.VnicAttachment_VnicId := Some "vnic-1" |} ];
     vnic := inl {| core.PrivateIp := Some "10.0.0.2";
                    core.PublicIp := None |} |}.

End Fixed.

(** A service that honours a context cancelled at a given time: from then
    on every get made under a cancellable context fails. *)
Module Cancel.

Record world := {
  now : Z;
  cancelled_at : Z;
  states : list string }.

#[global] Instance world_World : World world :=
  {| time_Sleep := fun d w =>
       {| now := now w + d;
          cancelled_at := cancelled_at w;
          states := states w |} |}.

Definition done (ctx : Context) (w : world) : bool :=
  match ctx with
  | context_WithCancel _ => (cancelled_at w <=? now w)%Z
  | _ => false
  end.

Definition get {A} (mk : string -> A) (ctx : Context) (_ : option string)
  : @remote world A :=
  fun w =>
    if done ctx w then (inr "context canceled", w)
    else
      match states w with
      | [] => (inr "NotFound", w)
      | s :: rest =>
          (inl (mk s),
           {| now := now w; cancelled_at := cancelled_at w;
              states := rest |})
      end.

Definition compute : ComputeClient world :=
  {| ListImages := fun _ _ w => (inr "ServiceUnavailable", w);
     LaunchInstance := fun _ _ w => (inr "ServiceUnavailable", w);
     ListBootVolumeAttachments := fun _ _ w => (inr "ServiceUnavailable", w);
     ListVnicAttachments := fun _ _ w => (inr "ServiceUnavailable", w);
     GetImage :=
       get (fun s => {| core.Image_Id := None;
                        core.Image_DisplayName := None;
                        core.Image_LifecycleState := s |});
     GetInstance :=
       get (fun s => {| core.Instance_Id := None;
                        core.Instance_LifecycleState := s |});
     GetVolumeAttachment :=
       get (fun s => {| core.VolumeAttachment_Id := None;
                        core.VolumeAttachment_LifecycleState := s |}) |}.

Definition blockstorage : BlockstorageClient world :=
  {| CreateBootVolume := fun _ _ w => (inr "ServiceUnavailable", w);
     GetBootVolume :=
       get (fun s => {| core.BootVolume_Id := None;
                        core.BootVolume_LifecycleState := s |}) |}.

Definition vcn : VirtualNetworkClient world :=
  {| GetVnic := fun _ _ w => (inr "ServiceUnavailable", w) |}.

Definition driver : driverOCI world :=
  {| computeClient := compute;
     blockstorageClient := blockstorage;
     vcnClient := vcn;
     cfg := Fixed.config "" "img-1" false |}.

End Cancel.

(** Counting the SDK calls of one kind in a trace. *)
Fixpoint count_calls (p : core.call -> bool) (t : list core.call) : nat :=
  match t with
  | [] => 0
  | c :: t' => if p c then S (count_calls p t') else count_calls p t'
  end.

Definition is_ListImages (c : core.call) : bool :=
  match c with core.ListImages _ _ => true | _ => false end.

(** The source a launch request asks for. *)
Definition launch_source (req : core.LaunchInstanceRequest)
  : option core.InstanceSourceDetails :=
  core.Launch_SourceDetails (core.LaunchInstanceDetails_of req).

(** A run of a wait operation: fuel and world in, outcome, world and trace
    out. *)
Definition wait_run (W : Type) : Type :=
  nat -> W -> res (option error) * W * list event.

(** The four wait operations, on given arguments. *)
Definition wait_operations {W} `{World W} (d : driverOCI W) (ctx : Context)
    (id : string) (waitStates : list string) (terminalState : string)
  : list (wait_run W) :=
  [ WaitForImageCreation d ctx id;
    WaitForInstanceState d ctx id waitStates terminalState;
    WaitForBootVolumeState d ctx id waitStates terminalState;
    WaitForVolumeAttachmentState d ctx id waitStates terminalState ].

(** A run polls without limit and at a fixed delay: it is the state poller
    with budget 0 and that delay; in every trace each sleep lasts the
    delay, and no outcome is the exhausted-retries error. *)
Definition polls_unlimited_at {W} `{World W} (delay : Duration)
    (run : wait_run W) : Prop :=
  (exists getResourceState id waitStates terminalState,
     run = waitForResourceToReachState getResourceState id waitStates
             terminalState 0%Z delay) /\
  forall fuel w r w' t,
    run fuel w = (r, w', t) ->
    Forall (fun e => step_of e = Fetch \/ step_of e = Sleep delay) t /\
    forall N terminalState,
      r <> Ret (Some (max_retries_exceeded N terminalState)).

(** ** The remaining operations of the driver

    [AttachBootClone], [DetachBootClone], [DeleteImage],
    [GetInstanceInitialCredentials], [TerminateInstance] and
    [DeleteBootVolume] call further operations of the same SDK clients.
    Those operations are kept in records of their own, beside
    [ComputeClient] and [BlockstorageClient], and the calls they log are of
    a type of their own.  Where an SDK operation has the name of the driver
    function that calls it, its field is prefixed with [SDK_]. *)

Module rest.

Inductive AttachVolumeDetails : Type :=
| AttachParavirtualizedVolumeDetails (VolumeId InstanceId : option string).

Record AttachVolumeRequest := {
  AttachVolumeDetails_of : AttachVolumeDetails }.

Record InstanceCredentials := {
  Username : option string;
  Password : option string }.

Inductive call : Type :=
| AttachVolume (ctx : Context) (req : AttachVolumeRequest)
| DetachVolume (ctx : Context) (VolumeAttachmentId : option string)
| DeleteImage (ctx : Context) (ImageId : option string)
| GetWindowsInstanceInitialCredentials (ctx : Context)
                                       (InstanceId : option string)
| TerminateInstance (ctx : Context) (InstanceId : option string)
| DeleteBootVolume (ctx : Context) (BootVolumeId : option string).

(** The context a call was made under. *)
Definition call_context (c : call) : Context :=
  match c with
  | AttachVolume ctx _ => ctx
  | DetachVolume ctx _ => ctx
  | DeleteImage ctx _ => ctx
  | GetWindowsInstanceInitialCredentials ctx _ => ctx
  | TerminateInstance ctx _ => ctx
  | DeleteBootVolume ctx _ => ctx
  end.

End rest.

Record ComputeClientRest (W : Type) := {
  AttachVolume :
    Context -> rest.AttachVolumeRequest -> @remote W core.VolumeAttachment;
  DetachVolume : Context -> option string -> @remote W unit;
  SDK_DeleteImage : Context -> option string -> @remote W unit;
  GetWindowsInstanceInitialCredentials :
    Context -> option string -> @remote W rest.InstanceCredentials;
  SDK_TerminateInstance : Context -> option string -> @remote W unit }.

Record BlockstorageClientRest (W : Type) := {
  SDK_DeleteBootVolume : Context -> option string -> @remote W unit }.

Arguments AttachVolume {W}.
Arguments DetachVolume {W}.
Arguments SDK_DeleteImage {W}.
Arguments GetWindowsInstanceInitialCredentials {W}.
Arguments SDK_TerminateInstance {W}.
Arguments SDK_DeleteBootVolume {W}.

Section Rest.

Context {W : Type}.
Variable computeClient' : ComputeClientRest W.
Variable blockstorageClient' : BlockstorageClientRest W.

(** A computation that logs calls of type [rest.call]. *)
Definition Act (A : Type) : Type := W -> res A * W * list rest.call.

Definition act_ret {A} (a : A) : Act A := fun w => (Ret a, w, []).

Definition act_bind {A B} (m : Act A) (k : A -> Act B) : Act B :=
  fun w =>
    match m w with
    | (Ret a, w1, t1) =>
        match k a w1 with (r, w2, t2) => (r, w2, t1 ++ t2) end
    | (Panic msg, w1, t1) => (Panic msg, w1, t1)
    | (OutOfFuel, w1, t1) => (OutOfFuel, w1, t1)
    end.

Definition act_invoke {A} (c : rest.call) (op : @remote W A)
  : Act (A + error) :=
  fun w =>
    match op w with
    | (inl a, w1) => (Ret (inl a), w1, [c])
    | (inr msg, w1) => (Ret (inr (ErrRemote msg)), w1, [c])
    end.

Definition act_deref {A} (p : option A) : Act A :=
  match p with
  | Some a => act_ret a
  | None => fun w => (Panic nil_dereference, w, [])
  end.

Definition AttachBootClone (ctx : Context) (InstanceId VolumeId : string)
  : Act (string + error) :=
  let req :=
    {| rest.AttachVolumeDetails_of :=
         rest.AttachParavirtualizedVolumeDetails
           (Some VolumeId) (Some InstanceId) |} in
  act_bind (act_invoke (rest.AttachVolume ctx req)
                       (AttachVolume computeClient' ctx req))
    (fun r =>
       match r with
       | inr err2 => act_ret (inr err2)
       | inl res2 =>
           act_bind (act_deref (core.VolumeAttachment_Id res2))
                    (fun id => act_ret (inl id))
       end).

Definition DetachBootClone (ctx : Context) (VolumeAttachmentId : string)
  : Act (string + error) :=
  act_bind (act_invoke (rest.DetachVolume ctx (Some VolumeAttachmentId))
                       (DetachVolume computeClient' ctx
                                     (Some VolumeAttachmentId)))
    (fun r =>
       match r with
       | inr err2 => act_ret (inr err2)
       | inl _ => act_ret (inl VolumeAttachmentId)
       end).

(** The [error] left of an answer whose value is dropped. *)
Definition error_of {A} (r : A + error) : option error :=
  match r with
  | inl _ => None
  | inr err => Some err
  end.

Definition DeleteImage (ctx : Context) (id : string) : Act (option error) :=
  act_bind (act_invoke (rest.DeleteImage ctx (Some id))
                       (SDK_DeleteImage computeClient' ctx (Some id)))
    (fun r => act_ret (error_of r)).

Definition GetInstanceInitialCredentials (ctx : Context) (id : string)
  : Act (string * string + error) :=
  act_bind (act_invoke (rest.GetWindowsInstanceInitialCredentials ctx (Some id))
                       (GetWindowsInstanceInitialCredentials computeClient'
                          ctx (Some id)))
    (fun r =>
       match r with
       | inr err => act_ret (inr err)
       | inl credentials =>
           act_bind (act_deref (rest.Username credentials))
             (fun username =>
                act_bind (act_deref (rest.Password credentials))
                  (fun password => act_ret (inl (username, password))))
       end).

Definition TerminateInstance (ctx : Context) (id : string)
  : Act (option error) :=
  act_bind (act_invoke (rest.TerminateInstance ctx (Some id))
                       (SDK_TerminateInstance computeClient' ctx (Some id)))
    (fun r => act_ret (error_of r)).

Definition DeleteBootVolume (ctx : Context) (id : string)
  : Act (option error) :=
  act_bind (act_invoke (rest.DeleteBootVolume ctx (Some id))
                       (SDK_DeleteBootVolume blockstorageClient' ctx (Some id)))
    (fun r => act_ret (error_of r)).

End Rest.

(** ** Further vocabulary *)

(** The context a call of the first kind was made under. *)
Definition call_context (c : core.call) : Context :=
  match c with
  | core.ListImages ctx _ => ctx
  | core.LaunchInstance ctx _ => ctx
  | core.ListBootVolumeAttachments ctx _ => ctx
  | core.CreateBootVolume ctx _ => ctx
  | core.ListVnicAttachments ctx _ => ctx
  | core.GetVnic ctx _ => ctx
  | core.GetImage ctx _ => ctx
  | core.GetInstance ctx _ => ctx
  | core.GetBootVolume ctx _ => ctx
  | core.GetVolumeAttachment ctx _ => ctx
  end.

Definition is_LaunchInstance (c : core.call) : bool :=
  match c with core.LaunchInstance _ _ => true | _ => false end.

Definition is_CreateBootVolume (c : core.call) : bool :=
  match c with core.CreateBootVolume _ _ => true | _ => false end.

(** The SDK calls made inside the fetches of a poller trace. *)
Fixpoint fetched_calls (t : list event) : list core.call :=
  match t with
  | [] => []
  | EvFetch _ calls :: t' => calls ++ fetched_calls t'
  | EvSleep _ :: t' => fetched_calls t'
  end.

(** A resource that never leaves PROVISIONING. *)
Module Stuck.

Definition getResourceState (_ : string) : @Drv unit (string + error) :=
  fun w => (Ret (inl "PROVISIONING"), w, []).

End Stuck.

(** The further operations of a service that gives the same answers
    whenever asked; detach, delete and terminate succeed. *)
Module FixedRest.

Definition done : @remote unit unit := fun w => (inl tt, w).

Definition compute (attached : core.VolumeAttachment + string)
    (credentials : rest.InstanceCredentials + string)
  : ComputeClientRest unit :=
  {| AttachVolume := fun _ _ => Fixed.answer (fun a => a) attached;
     DetachVolume := fun _ _ => done;
     SDK_DeleteImage := fun _ _ => done;
     GetWindowsInstanceInitialCredentials := fun _ _ =>
       Fixed.answer (fun c => c) credentials;
     SDK_TerminateInstance := fun _ _ => done |}.

Definition blockstorage : BlockstorageClientRest unit :=
  {| SDK_DeleteBootVolume := fun _ _ => done |}.

Definition attachment (id : option string) : core.VolumeAttachment :=
  {| core.VolumeAttachment_Id := id;
     core.VolumeAttachment_LifecycleState := "ATTACHING" |}.

End FixedRest.

(** ** Vocabulary for the waits and the context *)

(** The lifecycle state a get reports, or the SDK's error. *)
Definition lifecycle {W A} (op : @remote W A) (LifecycleState : A -> string)
  : @remote W string :=
  fun w =>
    match op w with
    | (inl resource, w1) => (inl (LifecycleState resource), w1)
    | (inr msg, w1) => (inr msg, w1)
    end.

(** How a wait operation polling resource [id] through the SDK call [c]
    goes on from any world: after a get that reports a waiting state it
    sleeps five seconds and runs on from the world the sleep leaves; after
    a get that fails it returns the SDK's error, and that get was its only
    action. *)
Definition sleeps_out_between_gets {W} `{World W} (id : string)
    (c : core.call) (get : @remote W string) (waitStates : list string)
    (run : wait_run W) : Prop :=
  (forall fuel w state w1,
     get w = (inl state, w1) ->
     waiting waitStates state ->
     run (S fuel) w =
       match run fuel (time_Sleep (5 * Second)%Z w1) with
       | (r, w2, t) =>
           (r, w2, EvFetch id [c] :: EvSleep (5 * Second)%Z :: t)
       end) /\
  (forall fuel w msg w1,
     get w = (inr msg, w1) ->
     run (S fuel) w = (Ret (Some (ErrRemote msg)), w1, [EvFetch id [c]])).

(** Two runs that come to the same result in the same world by the same
    fetches and sleeps. *)
Definition same_outcome {W} (run1 run2 : wait_run W) : Prop :=
  forall fuel w,
    (run1 fuel w).1 = (run2 fuel w).1 /\
    steps (run1 fuel w).2 = steps (run2 fuel w).2.

(** ** Facts about the loop counter and the retry budget *)

Definition may_poll (maxRetries i : int) : bool :=
  (maxRetries =? 0)%Z || (i <? maxRetries)%Z.

(** The budget lets [n] more iterations start from counter [i]. *)
Definition budget_covers (maxRetries i : int) (n : nat) : Prop :=
  maxRetries = 0%Z \/
  (0 <= i /\ i + Z.of_nat n <= maxRetries /\ maxRetries <= max_int)%Z.

Lemma may_poll_unlimited maxRetries i :
  maxRetries = 0%Z -> ((maxRetries =? 0)%Z || (i <? maxRetries)%Z) = true.
Proof. intros ->. reflexivity. Qed.

Lemma int_add_small (i : int) :
  (0 <= i)%Z -> (i + 1 <= max_int)%Z -> int_add i 1%Z = (i + 1)%Z.
Proof.
  unfold int_add, int_wrap, max_int. intros Hlo Hhi.
  rewrite Z.mod_small; lia.
Qed.

Lemma budget_covers_S maxRetries i n :
  budget_covers maxRetries i (S n) ->
  may_poll maxRetries i = true /\ budget_covers maxRetries (int_add i 1%Z) n.
Proof.
  unfold budget_covers, may_poll. intros [-> | (Hi & Hn & Hmax)].
  - split; [reflexivity | by left].
  - split.
    + apply orb_true_iff. right. apply Z.ltb_lt. lia.
    + right. rewrite int_add_small by lia. lia.
Qed.

Lemma budget_covers_start maxRetries n :
  (maxRetries <= max_int)%Z ->
  maxRetries = 0%Z \/ (Z.of_nat n <= maxRetries)%Z ->
  budget_covers maxRetries 0%Z n.
Proof. unfold budget_covers. intros Hmax [-> | Hn]; [by left | right; lia]. Qed.

Lemma incr_n_bounded maxRetries i n :
  maxRetries <> 0%Z -> budget_covers maxRetries i n ->
  incr_n n i = (i + Z.of_nat n)%Z.
Proof.
  intros Hne. revert i. induction n as [|n IH]; intros i Hb; simpl.
  - lia.
  - destruct (budget_covers_S _ _ _ Hb) as [_ Hb'].
    rewrite (IH _ Hb').
    destruct Hb as [? | (Hi & Hn & Hmax)]; [done |].
    rewrite int_add_small by lia. lia.
Qed.

Lemma stringSliceContains_In slice value :
  stringSliceContains slice value = true <-> In value slice.
Proof.
  induction slice as [|elem rest IH]; simpl.
  - split; [discriminate | tauto].
  - destruct (String.eqb_spec elem value) as [-> | Hne].
    + split; auto.
    + rewrite IH. split; [auto | intros [? | ?]; [congruence | done]].
Qed.

Lemma fetches_app (t1 t2 : list event) :
  fetches (t1 ++ t2) = fetches t1 + fetches t2.
Proof.
  induction t1 as [|[? ?|?] t1 IH]; simpl; [done | by rewrite IH | done].
Qed.

(** ** Facts about the poll loop *)

Section PollerFacts.

Context {W : Type} `{World W}.
Variable getResourceState : string -> @Drv W (string + error).
Variable id : string.
Variable waitStates : list string.
Variable terminalState : string.
Variable maxRetries : int.
Variable waitDuration : Duration.

Abbreviation loop :=
  (poll_loop getResourceState id waitStates terminalState maxRetries
             waitDuration).

(** One iteration that observes a waiting state: sleep, then go round. *)
Lemma poll_loop_waiting fuel i w state w1 cs :
  may_poll maxRetries i = true ->
  getResourceState id w = (Ret (inl state), w1, cs) ->
  waiting waitStates state ->
  loop (S fuel) i w =
    match loop fuel (int_add i 1%Z) (time_Sleep waitDuration w1) with
    | (r, w2, t) => (r, w2, EvFetch id cs :: EvSleep waitDuration :: t)
    end.
Proof.
  unfold may_poll, waiting. intros Hc Hf Hw. simpl.
  rewrite Hc, Hf, Hw. reflexivity.
Qed.

(** One iteration that observes the terminal state. *)
Lemma poll_loop_terminal fuel i w w1 cs :
  may_poll maxRetries i = true ->
  getResourceState id w = (Ret (inl terminalState), w1, cs) ->
  stringSliceContains waitStates terminalState = false ->
  loop (S fuel) i w = (Ret None, w1, [EvFetch id cs]).
Proof.
  unfold may_poll. intros Hc Hf Hw. simpl.
  rewrite Hc, Hf, Hw, String.eqb_refl. reflexivity.
Qed.

(** One iteration that observes a state nobody expects. *)
Lemma poll_loop_unexpected fuel i w state w1 cs :
  may_poll maxRetries i = true ->
  getResourceState id w = (Ret (inl state), w1, cs) ->
  stringSliceContains waitStates state = false ->
  state <> terminalState ->
  loop (S fuel) i w =
    (Ret (Some (unexpected_state state waitStates terminalState)), w1,
     [EvFetch id cs]).
Proof.
  unfold may_poll. intros Hc Hf Hw Hne. simpl.
  rewrite Hc, Hf, Hw.
  destruct (String.eqb_spec state terminalState); [done | reflexivity].
Qed.

(** One iteration whose fetch fails. *)
Lemma poll_loop_fetch_error fuel i w err w1 cs :
  may_poll maxRetries i = true ->
  getResourceState id w = (Ret (inr err), w1, cs) ->
  loop (S fuel) i w = (Ret (Some err), w1, [EvFetch id cs]).
Proof.
  unfold may_poll. intros Hc Hf. simpl. rewrite Hc, Hf. reflexivity.
Qed.

(** The loop condition fails: the budget is spent. *)
Lemma poll_loop_exhausted fuel i w :
  may_poll maxRetries i = false ->
  loop (S fuel) i w =
    (Ret (Some (max_retries_exceeded maxRetries terminalState)), w, []).
Proof. unfold may_poll. intros Hc. simpl. rewrite Hc. reflexivity. Qed.

(** A run of waiting observations the budget covers: as many rounds of
    fetch-then-sleep, and the loop goes on from where they lead. *)
Lemma poll_loop_observes w states w' :
  observes getResourceState id waitDuration w states w' ->
  Forall (waiting waitStates) states ->
  forall i, budget_covers maxRetries i (length states) ->
  exists t0,
    steps t0 = rounds (length states) waitDuration /\
    fetches t0 = length states /\
    forall fuel,
      loop (length states + fuel) i w =
        match loop fuel (incr_n (length states) i) w' with
        | (r, w2, t) => (r, w2, t0 ++ t)
        end.
Proof.
  induction 1 as [w | w state w1 cs states w' Hf Hobs IH]; intros Hall i Hb.
  - exists []. repeat split. intros fuel. simpl.
    by destruct (loop fuel i w) as [[r w2] t].
  - inversion Hall as [| ? ? Hw Hall']; subst.
    destruct (budget_covers_S _ _ _ Hb) as [Hc Hb'].
    destruct (IH Hall' _ Hb') as (t0 & Hsteps & Hfetches & Hrun).
    exists (EvFetch id cs :: EvSleep waitDuration :: t0).
    split; [| split].
    + simpl. by rewrite <- Hsteps.
    + simpl. by rewrite Hfetches.
    + intros fuel.
      change (length (state :: states) + fuel)
        with (S (length states + fuel)).
      rewrite (poll_loop_waiting _ _ _ _ _ _ Hc Hf Hw), Hrun. simpl.
      by destruct (loop fuel _ w') as [[r w2] t].
Qed.

(** With no budget the loop counter plays no part. *)
Lemma poll_loop_unlimited_counter fuel :
  maxRetries = 0%Z -> forall i j w, loop fuel i w = loop fuel j w.
Proof.
  intros Hz. induction fuel as [|fuel IH]; intros i j w; [reflexivity |].
  simpl. rewrite !(may_poll_unlimited _ _ Hz).
  destruct (getResourceState id w) as [[[[state | err] | msg |] w1] cs];
    try reflexivity.
  destruct (stringSliceContains waitStates state); [| reflexivity].
  by rewrite (IH (int_add i 1%Z) (int_add j 1%Z)).
Qed.

(** Every sleep lasts [waitDuration]. *)
Lemma poll_loop_sleeps fuel :
  forall i w r w' t,
    loop fuel i w = (r, w', t) ->
    Forall (fun e => step_of e = Fetch \/ step_of e = Sleep waitDuration) t.
Proof.
  induction fuel as [|fuel IH]; intros i w r w' t; simpl.
  - intros [= <- <- <-]. constructor.
  - destruct (_ || _).
    + destruct (getResourceState id w) as [[[[state | err] | msg |] w1] cs].
      * destruct (stringSliceContains waitStates state).
        -- destruct (loop fuel _ _) as [[r2 w2] t2] eqn:Hrec.
           intros [= <- <- <-].
           constructor; [by left |]. constructor; [by right |].
           by eapply IH.
        -- destruct (String.eqb state terminalState);
             intros [= <- <- <-]; (constructor; [by left | constructor]).
      * intros [= <- <- <-]. constructor; [by left | constructor].
      * intros [= <- <- <-]. constructor; [by left | constructor].
      * intros [= <- <- <-]. constructor; [by left | constructor].
    + intros [= <- <- <-]. constructor.
Qed.

(** Where a returned error comes from when the budget is unlimited: the
    fetch function, or an unexpected state. *)
Lemma poll_loop_unlimited_errors fuel :
  maxRetries = 0%Z ->
  forall i w e w' t,
    loop fuel i w = (Ret (Some e), w', t) ->
    (exists w0 w1 cs, getResourceState id w0 = (Ret (inr e), w1, cs)) \/
    (exists state, e = unexpected_state state waitStates terminalState).
Proof.
  intros Hz. induction fuel as [|fuel IH]; intros i w e w' t; simpl.
  - discriminate.
  - rewrite (may_poll_unlimited _ _ Hz).
    destruct (getResourceState id w) as [[[[state | err] | msg |] w1] cs] eqn:Hf.
    + destruct (stringSliceContains waitStates state).
      * destruct (loop fuel _ _) as [[r2 w2] t2] eqn:Hrec.
        intros [= -> <- <-]. by eapply IH.
      * destruct (String.eqb state terminalState); [discriminate |].
        intros [= <- <- <-]. right. by exists state.
    + intros [= <- <- <-]. left. by exists w, w1, cs.
    + discriminate.
    + discriminate.
Qed.

(** When the terminal state is itself a waiting state, no run returns
    [nil]. *)
Lemma poll_loop_never_succeeds fuel :
  stringSliceContains waitStates terminalState = true ->
  forall i w, (loop fuel i w).1.1 <> Ret None.
Proof.
  intros Hin. induction fuel as [|fuel IH]; intros i w; simpl; [done |].
  destruct (_ || _); [| done].
  destruct (getResourceState id w) as [[[[state | err] | msg |] w1] cs];
    try done.
  destruct (stringSliceContains waitStates state) eqn:Hw.
  - specialize (IH (int_add i 1%Z) (time_Sleep waitDuration w1)).
    by destruct (loop fuel _ _) as [[r2 w2] t2].
  - destruct (String.eqb_spec state terminalState) as [-> | Hne]; [| done].
    congruence.
Qed.

End PollerFacts.

(** ** The state poller: what a call returns and how often it fetches *)

(** C1 (as amended).  When the fetch function reports states of the waiting
    set and then the terminal state, the terminal state is not itself a
    waiting state, and the retry budget is unlimited or at least the length
    of that sequence, the poller returns [nil]; it has fetched once per
    state of the sequence, sleeping after each waiting state and not after
    the terminal one. *)
Theorem poller_succeeds_at_terminal {W} `{World W}
    (getResourceState : string -> @Drv W (string + error)) (id : string)
    (waitStates : list string) (terminalState : string) (maxRetries : int)
    (waitDuration : Duration) (ws : list string) (w w1 w' : W) (fuel : nat) :
  (maxRetries <= max_int)%Z ->
  observes getResourceState id waitDuration w ws w1 ->
  Forall (waiting waitStates) ws ->
  fetch_reports getResourceState id w1 terminalState w' ->
  stringSliceContains waitStates terminalState = false ->
  maxRetries = 0%Z \/
    (Z.of_nat (length (ws ++ [terminalState])) <= maxRetries)%Z ->
  length ws < fuel ->
  exists t,
    waitForResourceToReachState getResourceState id waitStates terminalState
      maxRetries waitDuration fuel w = (Ret None, w', t) /\
    fetches t = length (ws ++ [terminalState]) /\
    steps t = rounds (length ws) waitDuration ++ [Fetch].
Proof.
  intros Hmax Hobs Hall [cs Hf] Hnw Hbudget Hfuel.
  rewrite length_app in *. simpl in *.
  assert (Hb : budget_covers maxRetries 0%Z (length ws + 1)).
  { apply budget_covers_start; [done |]. destruct Hbudget; [by left | right; lia]. }
  assert (Hb0 : budget_covers maxRetries 0%Z (length ws)).
  { destruct Hb as [? | ?]; [by left | right; lia]. }
  destruct (poll_loop_observes getResourceState id waitStates terminalState
              maxRetries waitDuration w ws w1 Hobs Hall 0%Z Hb0)
    as (t0 & Hsteps & Hfetches & Hrun).
  assert (Hc : may_poll maxRetries (incr_n (length ws) 0%Z) = true).
  { unfold may_poll. destruct (Z.eq_dec maxRetries 0%Z) as [-> | Hne]; [done |].
    rewrite (incr_n_bounded maxRetries) by done.
    destruct Hb as [? | ?]; [done |].
    apply orb_true_iff. right. apply Z.ltb_lt. lia. }
  exists (t0 ++ [EvFetch id cs]).
  unfold waitForResourceToReachState.
  replace fuel with (length ws + S (fuel - S (length ws))) by lia.
  rewrite Hrun.
  rewrite (poll_loop_terminal _ _ _ _ _ _ _ _ _ _ _ Hc Hf Hnw).
  split; [reflexivity | split].
  - rewrite fetches_app, Hfetches. reflexivity.
  - unfold steps in *. by rewrite map_app, Hsteps.
Qed.

Lemma poller_succeeds_at_terminal_witness :
  exists t,
    waitForResourceToReachState Script.getResourceState "i-1"
      ["PROVISIONING"] "RUNNING" 0%Z (5 * Second)%Z 10
      (Script.states ["PROVISIONING"; "PROVISIONING"; "PROVISIONING";
                      "RUNNING"])
    = (Ret None, [], t) /\
    fetches t = 4 /\
    steps t = rounds 3 (5 * Second)%Z ++ [Fetch].
Proof.
  apply (poller_succeeds_at_terminal Script.getResourceState "i-1"
           ["PROVISIONING"] "RUNNING" 0%Z (5 * Second)%Z
           ["PROVISIONING"; "PROVISIONING"; "PROVISIONING"]
           (Script.states ["PROVISIONING"; "PROVISIONING"; "PROVISIONING";
                           "RUNNING"])
           (Script.states ["RUNNING"]) [] 10).
  - unfold max_int. lia.
  - repeat (eapply observes_cons; [reflexivity |]). apply observes_nil.
  - repeat constructor.
  - by exists [].
  - reflexivity.
  - by left.
  - simpl. lia.
Defined.

(** C1, as first stated, fails twice over.  With a budget of one retry the
    sequence PROVISIONING, RUNNING ends in the exhausted-retries error after
    a single fetch; and with STOPPED both a waiting state and the terminal
    state, the sequence STOPPING, STOPPED never ends in [nil]. *)
Lemma poller_succeeds_at_terminal_counterexample :
  (observes Script.getResourceState "i-1" (5 * Second)%Z
     (Script.states ["PROVISIONING"; "RUNNING"]) ["PROVISIONING"]
     (Script.states ["RUNNING"]) /\
   fetch_reports Script.getResourceState "i-1"
     (Script.states ["RUNNING"]) "RUNNING" [] /\
   Forall (waiting ["PROVISIONING"]) ["PROVISIONING"] /\
   waitForResourceToReachState Script.getResourceState "i-1"
     ["PROVISIONING"] "RUNNING" 1%Z (5 * Second)%Z 10
     (Script.states ["PROVISIONING"; "RUNNING"])
   = (Ret (Some (max_retries_exceeded 1%Z "RUNNING")),
      Script.states ["RUNNING"],
      [EvFetch "i-1" []; EvSleep (5 * Second)%Z]) /\
   forall fuel,
     (waitForResourceToReachState Script.getResourceState "i-1"
        ["PROVISIONING"] "RUNNING" 1%Z (5 * Second)%Z fuel
        (Script.states ["PROVISIONING"; "RUNNING"])).1.1 <> Ret None)
  /\
  (observes Script.getResourceState "i-1" (5 * Second)%Z
     (Script.states ["STOPPING"; "STOPPED"]) ["STOPPING"]
     (Script.states ["STOPPED"]) /\
   fetch_reports Script.getResourceState "i-1"
     (Script.states ["STOPPED"]) "STOPPED" [] /\
   Forall (waiting ["STOPPING"; "STOPPED"]) ["STOPPING"] /\
   forall fuel,
     (waitForResourceToReachState Script.getResourceState "i-1"
        ["STOPPING"; "STOPPED"] "STOPPED" 0%Z (5 * Second)%Z fuel
        (Script.states ["STOPPING"; "STOPPED"])).1.1 <> Ret None).
Proof.
  split.
  - split; [| split; [| split; [| split]]].
    + eapply observes_cons; [reflexivity | apply observes_nil].
    + by exists [].
    + by repeat constructor.
    + reflexivity.
    + intros [|[|fuel]]; vm_compute; discriminate.
  - split; [| split; [| split]].
    + eapply observes_cons; [reflexivity | apply observes_nil].
    + by exists [].
    + by repeat constructor.
    + intros fuel. by apply poll_loop_never_succeeds.
Qed.




(** C3.  With a retry budget [N > 0] and a fetch function that reports [N]
    states of the waiting set, the poller returns the exhausted-retries
    error, which names [N] and the terminal state, after exactly [N]
    fetches, each followed by a sleep. *)
Theorem poller_exhausts_budget {W} `{World W}
    (getResourceState : string -> @Drv W (string + error)) (id : string)
    (waitStates : list string) (terminalState : string) (N : int)
    (waitDuration : Duration) (ws : list string) (w w' : W) (fuel : nat) :
  (0 < N <= max_int)%Z ->
  observes getResourceState id waitDuration w ws w' ->
  Z.of_nat (length ws) = N ->
  Forall (waiting waitStates) ws ->
  length ws < fuel ->
  exists t e,
    waitForResourceToReachState getResourceState id waitStates terminalState
      N waitDuration fuel w = (Ret (Some e), w', t) /\
    e = max_retries_exceeded N terminalState /\
    names_int e N /\
    names_string e terminalState /\
    fetches t = Z.to_nat N /\
    steps t = rounds (Z.to_nat N) waitDuration.
Proof.
  intros [Hpos Hmax] Hobs Hlen Hall Hfuel.
  assert (Hb : budget_covers N 0%Z (length ws)) by (right; lia).
  destruct (poll_loop_observes getResourceState id waitStates terminalState
              N waitDuration w ws w' Hobs Hall 0%Z Hb)
    as (t0 & Hsteps & Hfetches & Hrun).
  assert (Hc : may_poll N (incr_n (length ws) 0%Z) = false).
  { unfold may_poll. rewrite (incr_n_bounded N) by (done || lia).
    apply orb_false_iff. split; [apply Z.eqb_neq | apply Z.ltb_ge]; lia. }
  exists t0, (max_retries_exceeded N terminalState).
  unfold waitForResourceToReachState.
  replace fuel with (length ws + S (fuel - S (length ws))) by lia.
  rewrite Hrun.
  rewrite (poll_loop_exhausted _ _ _ _ _ _ _ _ _ Hc).
  rewrite app_nil_r.
  replace (Z.to_nat N) with (length ws) by lia.
  repeat split; [by left | right; by left | done | done].
Qed.

Lemma poller_exhausts_budget_witness :
  exists t e,
    waitForResourceToReachState Script.getResourceState "bv-1"
      ["PROVISIONING"] "AVAILABLE" 3%Z (5 * Second)%Z 4
      (Script.states ["PROVISIONING"; "PROVISIONING"; "PROVISIONING";
                      "AVAILABLE"])
    = (Ret (Some e), Script.states ["AVAILABLE"], t) /\
    e = max_retries_exceeded 3%Z "AVAILABLE" /\
    names_int e 3%Z /\
    names_string e "AVAILABLE" /\
    fetches t = Z.to_nat 3 /\
    steps t = rounds (Z.to_nat 3) (5 * Second)%Z.
Proof.
  apply (poller_exhausts_budget Script.getResourceState "bv-1"
           ["PROVISIONING"] "AVAILABLE" 3%Z (5 * Second)%Z
           ["PROVISIONING"; "PROVISIONING"; "PROVISIONING"]
           (Script.states ["PROVISIONING"; "PROVISIONING"; "PROVISIONING";
                           "AVAILABLE"])
           (Script.states ["AVAILABLE"]) 4).
  - unfold max_int. lia.
  - repeat (eapply observes_cons; [reflexivity |]). apply observes_nil.
  - reflexivity.
  - repeat constructor.
  - simpl. lia.
Defined.

(** C10.  The waiting-set check comes first: when the terminal state is
    also a waiting state, observing it makes the loop sleep and go round
    with the counter advanced, and no call of the poller returns [nil]. *)
Theorem waiting_check_precedes_terminal {W} `{World W}
    (getResourceState : string -> @Drv W (string + error)) (id : string)
    (waitStates : list string) (terminalState : string) (maxRetries : int)
    (waitDuration : Duration) :
  stringSliceContains waitStates terminalState = true ->
  (forall fuel i w w1 cs,
     may_poll maxRetries i = true ->
     getResourceState id w = (Ret (inl terminalState), w1, cs) ->
     poll_loop getResourceState id waitStates terminalState maxRetries
       waitDuration (S fuel) i w =
     match poll_loop getResourceState id waitStates terminalState maxRetries
             waitDuration fuel (int_add i 1%Z) (time_Sleep waitDuration w1)
     with
     | (r, w2, t) => (r, w2, EvFetch id cs :: EvSleep waitDuration :: t)
     end) /\
  (forall fuel w,
     (waitForResourceToReachState getResourceState id waitStates
        terminalState maxRetries waitDuration fuel w).1.1 <> Ret None).
Proof.
  intros Hin. split.
  - intros fuel i w w1 cs Hc Hf.
    by apply (poll_loop_waiting _ _ _ _ _ _ _ _ _ terminalState).
  - intros fuel w. by apply poll_loop_never_succeeds.
Qed.

Lemma waiting_check_precedes_terminal_witness :
  stringSliceContains ["STOPPING"; "STOPPED"] "STOPPED" = true /\
  waitForResourceToReachState Script.getResourceState "i-1"
    ["STOPPING"; "STOPPED"] "STOPPED" 2%Z (5 * Second)%Z 3
    (Script.states ["STOPPED"; "STOPPED"])
  = (Ret (Some (max_retries_exceeded 2%Z "STOPPED")), [],
     [EvFetch "i-1" []; EvSleep (5 * Second)%Z;
      EvFetch "i-1" []; EvSleep (5 * Second)%Z]) /\
  forall fuel w,
    (waitForResourceToReachState Script.getResourceState "i-1"
       ["STOPPING"; "STOPPED"] "STOPPED" 2%Z (5 * Second)%Z fuel w).1.1
    <> Ret None.
Proof.
  split; [reflexivity | split; [reflexivity |]].
  exact (proj2 (waiting_check_precedes_terminal Script.getResourceState
                  "i-1" ["STOPPING"; "STOPPED"] "STOPPED" 2%Z
                  (5 * Second)%Z eq_refl)).
Defined.

(** ** The wait operations *)

Section WaitFacts.

Context {W : Type} `{World W}.

(** The fetch function of a wait operation fails only with the SDK's
    error. *)
Lemma state_of_error {A} c (op : @remote W A) L w e w1 cs :
  state_of c op L w = (Ret (inr e), w1, cs) -> exists msg, e = ErrRemote msg.
Proof.
  unfold state_of, bind, invoke, ret.
  destruct (op w) as [[a | msg] w2]; simpl; [discriminate |].
  intros [= <- <- <-]. by exists msg.
Qed.

Lemma state_of_ok {A} c (op : @remote W A) L w a w1 :
  op w = (inl a, w1) -> state_of c op L w = (Ret (inl (L a)), w1, [c]).
Proof. unfold state_of, bind, invoke, ret. by intros ->. Qed.

Lemma state_of_fails {A} c (op : @remote W A) L w msg w1 :
  op w = (inr msg, w1) ->
  state_of c op L w = (Ret (inr (ErrRemote msg)), w1, [c]).
Proof. unfold state_of, bind, invoke, ret. by intros ->. Qed.

(** The poller with budget 0 over a fetch function that fails only with the
    SDK's error polls without limit, at its delay. *)
Lemma poller_unlimited (f : string -> @Drv W (string + error)) id waitStates
    terminalState delay :
  (forall w e w1 cs,
     f id w = (Ret (inr e), w1, cs) -> exists msg, e = ErrRemote msg) ->
  polls_unlimited_at delay
    (waitForResourceToReachState f id waitStates terminalState 0%Z delay).
Proof.
  intros Hf. split; [by exists f, id, waitStates, terminalState |].
  unfold waitForResourceToReachState. intros fuel w r w' t Hrun. split.
  - by eapply poll_loop_sleeps.
  - intros N ts ->.
    destruct (poll_loop_unlimited_errors _ _ _ _ _ _ _ eq_refl _ _ _ _ _ Hrun)
      as [(w0 & w1 & cs & Herr) | [state Hst]].
    + by destruct (Hf _ _ _ _ Herr) as [msg ?].
    + discriminate.
Qed.

(** A run of waiting observations, then a fetch that fails: the error is
    returned as it is, after the sleeps and that one more fetch. *)
Lemma poller_returns_fetch_error (f : string -> @Drv W (string + error)) id
    waitStates terminalState maxRetries delay ws w w1 err w' fuel :
  (maxRetries <= max_int)%Z ->
  observes f id delay w ws w1 ->
  Forall (waiting waitStates) ws ->
  fetch_fails f id w1 err w' ->
  maxRetries = 0%Z \/ (Z.of_nat (length ws) < maxRetries)%Z ->
  length ws < fuel ->
  exists t,
    waitForResourceToReachState f id waitStates terminalState maxRetries
      delay fuel w = (Ret (Some err), w', t) /\
    fetches t = S (length ws) /\
    steps t = rounds (length ws) delay ++ [Fetch].
Proof.
  intros Hmax Hobs Hall [cs Hf] Hbudget Hfuel.
  assert (Hb : budget_covers maxRetries 0%Z (S (length ws))).
  { apply budget_covers_start; [done |].
    destruct Hbudget; [by left | right; lia]. }
  assert (Hb0 : budget_covers maxRetries 0%Z (length ws)).
  { destruct Hb as [? | ?]; [by left | right; lia]. }
  destruct (poll_loop_observes f id waitStates terminalState maxRetries delay
              w ws w1 Hobs Hall 0%Z Hb0)
    as (t0 & Hsteps & Hfetches & Hrun).
  assert (Hc : may_poll maxRetries (incr_n (length ws) 0%Z) = true).
  { unfold may_poll. destruct (Z.eq_dec maxRetries 0%Z) as [-> | Hne]; [done |].
    rewrite (incr_n_bounded maxRetries) by done.
    destruct Hb as [? | ?]; [done |].
    apply orb_true_iff. right. apply Z.ltb_lt. lia. }
  exists (t0 ++ [EvFetch id cs]).
  unfold waitForResourceToReachState.
  replace fuel with (length ws + S (fuel - S (length ws))) by lia.
  rewrite Hrun.
  rewrite (poll_loop_fetch_error _ _ waitStates terminalState _ delay
             _ _ _ _ _ _ Hc Hf).
  repeat split.
  - rewrite fetches_app, Hfetches. simpl. lia.
  - unfold steps in *. by rewrite map_app, Hsteps.
Qed.

End WaitFacts.

(** C9.  Each of the four wait operations is the state poller called with
    retry budget 0 and a delay of five seconds: all its sleeps last five
    seconds and it never returns the exhausted-retries error.  The image
    wait polls with waiting set PROVISIONING and terminal state
    AVAILABLE. *)
Theorem waits_poll_unlimited_at_fixed_delay {W} `{World W}
    (d : driverOCI W) (ctx : Context) (id : string)
    (waitStates : list string) (terminalState : string) :
  Forall (polls_unlimited_at (5 * Second)%Z)
         (wait_operations d ctx id waitStates terminalState) /\
  WaitForImageCreation d ctx id =
    waitForResourceToReachState (image_state d ctx id) id
      ["PROVISIONING"] "AVAILABLE" 0%Z (5 * Second)%Z.
Proof.
  split; [| reflexivity].
  unfold wait_operations.
  do 4 (constructor;
        [apply poller_unlimited; intros w e w1 cs; apply state_of_error |]).
  constructor.
Qed.

Section WaitSteps.

Context {W : Type} `{World W}.

Lemma lifecycle_ok {A} (op : @remote W A) L w state w1 :
  lifecycle op L w = (inl state, w1) ->
  exists resource, op w = (inl resource, w1) /\ L resource = state.
Proof.
  unfold lifecycle. destruct (op w) as [[resource | msg] w2]; [| done].
  intros [= <- <-]. by exists resource.
Qed.

Lemma lifecycle_fails {A} (op : @remote W A) L w msg w1 :
  lifecycle op L w = (inr msg, w1) -> op w = (inr msg, w1).
Proof.
  unfold lifecycle. destruct (op w) as [[resource | msg'] w2]; [done |].
  by intros [= <- <-].
Qed.

(** The poller with budget 0 and a delay of five seconds, over one SDK get:
    how it goes on after a waiting observation and after a failed get. *)
Lemma poller_sleeps_out_between_gets {A} (c : core.call) (op : @remote W A)
    (L : A -> string) id waitStates terminalState :
  sleeps_out_between_gets id c (lifecycle op L) waitStates
    (waitForResourceToReachState (fun _ => state_of c op L) id waitStates
       terminalState 0%Z (5 * Second)%Z).
Proof.
  unfold waitForResourceToReachState. split.
  - intros fuel w state w1 Hget Hwait.
    destruct (lifecycle_ok _ _ _ _ _ Hget) as (resource & Hop & <-).
    rewrite (poll_loop_waiting (fun _ => state_of c op L) id waitStates
               terminalState 0%Z (5 * Second)%Z fuel 0%Z w
               (L resource) w1 [c] eq_refl
               (state_of_ok c op L w resource w1 Hop) Hwait).
    by rewrite (poll_loop_unlimited_counter (fun _ => state_of c op L) id
                  waitStates terminalState 0%Z (5 * Second)%Z fuel eq_refl
                  (int_add 0%Z 1%Z) 0%Z).
  - intros fuel w msg w1 Hget.
    apply lifecycle_fails in Hget.
    apply poll_loop_fetch_error; [reflexivity |].
    by apply state_of_fails.
Qed.

(** The loop sees of its fetch function only what it returns and the world
    it leaves. *)
Lemma poll_loop_same_outcome (f1 f2 : string -> @Drv W (string + error))
    id waitStates terminalState maxRetries delay :
  (forall w, (f1 id w).1 = (f2 id w).1) ->
  forall fuel i w,
    (poll_loop f1 id waitStates terminalState maxRetries delay fuel i w).1 =
    (poll_loop f2 id waitStates terminalState maxRetries delay fuel i w).1 /\
    steps (poll_loop f1 id waitStates terminalState maxRetries delay
                     fuel i w).2 =
    steps (poll_loop f2 id waitStates terminalState maxRetries delay
                     fuel i w).2.
Proof.
  intros Hsame. induction fuel as [|fuel IH]; intros i w; simpl; [done |].
  destruct (_ || _); [| done].
  specialize (Hsame w).
  destruct (f1 id w) as [[r1 w1] cs1], (f2 id w) as [[r2 w2] cs2].
  simpl in Hsame. injection Hsame as <- <-.
  destruct r1 as [[state | err] | msg |]; try done.
  destruct (stringSliceContains waitStates state).
  - specialize (IH (int_add i 1%Z) (time_Sleep delay w1)).
    destruct (poll_loop f1 _ _ _ _ _ fuel _ _) as [[ra wa] ta],
             (poll_loop f2 _ _ _ _ _ fuel _ _) as [[rb wb] tb].
    simpl in *. destruct IH as [[= <- <-] ->]. done.
  - by destruct (String.eqb state terminalState).
Qed.

(** Two contexts between which the get does not distinguish give the same
    wait. *)
Lemma poller_same_under_contexts {A} (c1 c2 : core.call)
    (op1 op2 : @remote W A) (L : A -> string) id waitStates terminalState :
  (forall w, op1 w = op2 w) ->
  same_outcome
    (waitForResourceToReachState (fun _ => state_of c1 op1 L) id waitStates
       terminalState 0%Z (5 * Second)%Z)
    (waitForResourceToReachState (fun _ => state_of c2 op2 L) id waitStates
       terminalState 0%Z (5 * Second)%Z).
Proof.
  intros Hop fuel w. apply poll_loop_same_outcome. intros w0.
  unfold state_of, bind, invoke, ret. rewrite Hop.
  by destruct (op2 w0) as [[resource | msg] w1].
Qed.

End WaitSteps.

(** C7 (as amended).  No poll loop looks at the caller's context: the
    context only reaches the SDK get call made by the fetch function of
    each of the four wait operations, and a wait under two contexts between
    which that get does not distinguish comes to the same result by the
    same fetches and sleeps.  In each of the four wait operations, after
    every get that reports a waiting state the loop sleeps the whole five
    seconds and goes on to the next get, whatever became of the context
    meanwhile; and when a get returns an error the wait returns that error
    as it is, with no further sleep or get. *)
Theorem waits_sleep_out_between_gets {W} `{World W}
    (d : driverOCI W) (ctx : Context) (id : string)
    (waitStates : list string) (terminalState : string) :
  (sleeps_out_between_gets id (core.GetImage ctx (Some id))
     (lifecycle (GetImage (computeClient d) ctx (Some id))
                core.Image_LifecycleState)
     ["PROVISIONING"]
     (WaitForImageCreation d ctx id) /\
   sleeps_out_between_gets id (core.GetInstance ctx (Some id))
     (lifecycle (GetInstance (computeClient d) ctx (Some id))
                core.Instance_LifecycleState)
     waitStates
     (WaitForInstanceState d ctx id waitStates terminalState) /\
   sleeps_out_between_gets id (core.GetBootVolume ctx (Some id))
     (lifecycle (GetBootVolume (blockstorageClient d) ctx (Some id))
                core.BootVolume_LifecycleState)
     waitStates
     (WaitForBootVolumeState d ctx id waitStates terminalState) /\
   sleeps_out_between_gets id (core.GetVolumeAttachment ctx (Some id))
     (lifecycle (GetVolumeAttachment (computeClient d) ctx (Some id))
                core.VolumeAttachment_LifecycleState)
     waitStates
     (WaitForVolumeAttachmentState d ctx id waitStates terminalState))
  /\
  forall ctx',
    ((forall w, GetImage (computeClient d) ctx (Some id) w =
                GetImage (computeClient d) ctx' (Some id) w) ->
     same_outcome (WaitForImageCreation d ctx id)
                  (WaitForImageCreation d ctx' id)) /\
    ((forall w, GetInstance (computeClient d) ctx (Some id) w =
                GetInstance (computeClient d) ctx' (Some id) w) ->
     same_outcome (WaitForInstanceState d ctx id waitStates terminalState)
                  (WaitForInstanceState d ctx' id waitStates terminalState))
    /\
    ((forall w, GetBootVolume (blockstorageClient d) ctx (Some id) w =
                GetBootVolume (blockstorageClient d) ctx' (Some id) w) ->
     same_outcome (WaitForBootVolumeState d ctx id waitStates terminalState)
                  (WaitForBootVolumeState d ctx' id waitStates
                     terminalState)) /\
    ((forall w, GetVolumeAttachment (computeClient d) ctx (Some id) w =
                GetVolumeAttachment (computeClient d) ctx' (Some id) w) ->
     same_outcome
       (WaitForVolumeAttachmentState d ctx id waitStates terminalState)
       (WaitForVolumeAttachmentState d ctx' id waitStates terminalState)).
Proof.
  split.
  - split; [| split; [| split]]; apply poller_sleeps_out_between_gets.
  - intros ctx'. split; [| split; [| split]]; intros Hop;
      by apply poller_same_under_contexts.
Qed.

Lemma waits_sleep_out_between_gets_witness :
  let ctx := context_WithCancel 0 in
  WaitForInstanceState Cancel.driver ctx "i-1" ["PROVISIONING"] "RUNNING" 2
    {| Cancel.now := 0; Cancel.cancelled_at := 1 * Second;
       Cancel.states := ["PROVISIONING"; "RUNNING"] |}
  = (Ret (Some (ErrRemote "context canceled")),
     {| Cancel.now := 5 * Second; Cancel.cancelled_at := 1 * Second;
        Cancel.states := ["RUNNING"] |},
     [EvFetch "i-1" [core.GetInstance ctx (Some "i-1")];
      EvSleep (5 * Second)%Z;
      EvFetch "i-1" [core.GetInstance ctx (Some "i-1")]]).
Proof.
  intros ctx.
  destruct (waits_sleep_out_between_gets Cancel.driver ctx "i-1"
              ["PROVISIONING"] "RUNNING")
    as [(_ & [Hwaiting Hfailed] & _) _].
  erewrite Hwaiting; [| reflexivity | reflexivity].
  erewrite Hfailed; reflexivity.
Defined.

(** C7, as first stated, fails.  The context is cancelled one second into
    the first sleep; the wait nevertheless sleeps the five seconds out,
    issues the next get, and returns four seconds after the cancellation. *)
Lemma waits_sleep_out_between_gets_counterexample :
  let ctx := context_WithCancel 0 in
  let w0 := {| Cancel.now := 0; Cancel.cancelled_at := 1 * Second;
               Cancel.states := ["PROVISIONING"; "RUNNING"] |} in
  exists w',
    WaitForInstanceState Cancel.driver ctx "i-1" ["PROVISIONING"] "RUNNING"
      10 w0
    = (Ret (Some (ErrRemote "context canceled")), w',
       [EvFetch "i-1" [core.GetInstance ctx (Some "i-1")];
        EvSleep (5 * Second)%Z;
        EvFetch "i-1" [core.GetInstance ctx (Some "i-1")]]) /\
    Cancel.now w' = (5 * Second)%Z /\
    (Cancel.cancelled_at w' < Cancel.now w')%Z.
Proof.
  eexists. split; [reflexivity | split; [reflexivity | done]].
Qed.

(** ** Instance creation *)

Section LifecycleFacts.

Context {W : Type}.
Variable d : driverOCI W.

Lemma nonempty_true s : nonempty s = true <-> s <> "".
Proof.
  unfold nonempty. destruct (String.eqb_spec s ""); simpl; split; congruence.
Qed.

Lemma source_details_boot_volume imageId surrogateVolumeId :
  nonempty surrogateVolumeId = true ->
  source_details d imageId surrogateVolumeId =
    core.InstanceSourceViaBootVolumeDetails (Some surrogateVolumeId).
Proof. unfold source_details. by intros ->. Qed.

Lemma source_details_image imageId :
  source_details d imageId "" =
    core.InstanceSourceViaImageDetails
      (Some imageId) (Some (BootVolumeSizeInGBs (cfg d))).
Proof. reflexivity. Qed.

(** The lookup by name, when it finds an image that has an id. *)
Lemma resolve_image_by_name w images w1 first imageId :
  nonempty (BaseImageName (cfg d)) = true ->
  ListImages (computeClient d) context_TODO (list_images_request d) w
    = (inl images, w1) ->
  core.ListImages_Items images !! 0 = Some first ->
  core.Image_Id first = Some imageId ->
  resolve_image d w =
    (Ret (inl imageId), w1,
     [core.ListImages context_TODO (list_images_request d)]).
Proof.
  intros Hname Hlist Hfirst Hid.
  unfold resolve_image, bind, invoke, index, deref, ret.
  rewrite Hname, Hlist, Hfirst, Hid. reflexivity.
Qed.

(** No name configured: no lookup. *)
Lemma resolve_image_by_id w :
  nonempty (BaseImageName (cfg d)) = false ->
  resolve_image d w = (Ret (inl (BaseImageID (cfg d))), w, []).
Proof. unfold resolve_image, ret. by intros ->. Qed.

(** Whatever the lookup comes to, it is the one call [resolve_image]
    makes when a name is configured. *)
Lemma resolve_image_trace w r w1 t :
  nonempty (BaseImageName (cfg d)) = true ->
  resolve_image d w = (r, w1, t) ->
  t = [core.ListImages context_TODO (list_images_request d)].
Proof.
  intros Hname. unfold resolve_image, bind, invoke, index, deref, ret, panic.
  rewrite Hname.
  destruct (ListImages _ _ _ w) as [[images | msg] w2]; simpl.
  - destruct (core.ListImages_Items images !! 0) as [first |]; simpl.
    + destruct (core.Image_Id first); simpl; by intros [= <- <- <-].
    + by intros [= <- <- <-].
  - by intros [= <- <- <-].
Qed.

(** The lookup finds nothing: indexing the empty result panics, and the
    launch call is never reached. *)
Lemma CreateInstance_no_match_panics ctx publicKey surrogateVolumeId w
    images w1 :
  nonempty (BaseImageName (cfg d)) = true ->
  ListImages (computeClient d) context_TODO (list_images_request d) w
    = (inl images, w1) ->
  core.ListImages_Items images = [] ->
  CreateInstance d ctx publicKey surrogateVolumeId w =
    (Panic index_out_of_range, w1,
     [core.ListImages context_TODO (list_images_request d)]).
Proof.
  intros Hname Hlist Hnil.
  unfold CreateInstance, resolve_image, bind, invoke, index, panic.
  rewrite Hname, Hlist, Hnil. reflexivity.
Qed.

(** The SDK calls of [CreateInstance] once the image id is settled. *)
Lemma CreateInstance_after_resolve ctx publicKey surrogateVolumeId w
    imageId w1 t1 :
  resolve_image d w = (Ret (inl imageId), w1, t1) ->
  exists r w2,
    CreateInstance d ctx publicKey surrogateVolumeId w =
      (r, w2,
       t1 ++ [core.LaunchInstance context_TODO
                (launch_request d publicKey imageId surrogateVolumeId)]).
Proof.
  intros Hres. unfold CreateInstance, bind at 1. rewrite Hres.
  unfold bind, invoke, deref, ret, panic.
  destruct (LaunchInstance _ _ _ w1) as [[instance | msg] w2]; simpl.
  - destruct (core.Instance_Id instance); simpl; eauto.
  - eauto.
Qed.

(** Without a settled image id, [CreateInstance] makes the calls of the
    lookup and no other. *)
Lemma CreateInstance_resolve_fails ctx publicKey surrogateVolumeId w r w1 t1 :
  resolve_image d w = (r, w1, t1) ->
  (forall imageId, r <> Ret (inl imageId)) ->
  exists r', CreateInstance d ctx publicKey surrogateVolumeId w = (r', w1, t1).
Proof.
  intros Hres Hno. unfold CreateInstance, bind at 1. rewrite Hres.
  destruct r as [[imageId | err] | msg |].
  - by destruct (Hno imageId).
  - unfold ret. rewrite app_nil_r. eauto.
  - eauto.
  - eauto.
Qed.

End LifecycleFacts.

(** C4 (as amended).  When a base image name is configured and the lookup
    by name returns at least one image, whose first has an id,
    [CreateInstance] makes exactly one list-by-name call, followed by the
    launch call; with no clone source volume the launch source is the image
    with the first match's id, and with a clone source volume it is that
    boot volume. *)
Theorem CreateInstance_by_name {W} (d : driverOCI W) (ctx : Context)
    (publicKey surrogateVolumeId : string) (w w1 : W)
    (images : core.ListImagesResponse) (first : core.Image)
    (imageId : string) :
  nonempty (BaseImageName (cfg d)) = true ->
  ListImages (computeClient d) context_TODO (list_images_request d) w
    = (inl images, w1) ->
  core.ListImages_Items images !! 0 = Some first ->
  core.Image_Id first = Some imageId ->
  exists r w2 req,
    CreateInstance d ctx publicKey surrogateVolumeId w =
      (r, w2,
       [core.ListImages context_TODO (list_images_request d);
        core.LaunchInstance context_TODO req]) /\
    count_calls is_ListImages
      (CreateInstance d ctx publicKey surrogateVolumeId w).2 = 1 /\
    (surrogateVolumeId = "" ->
     launch_source req =
       Some (core.InstanceSourceViaImageDetails
               (Some imageId) (Some (BootVolumeSizeInGBs (cfg d))))) /\
    (surrogateVolumeId <> "" ->
     launch_source req =
       Some (core.InstanceSourceViaBootVolumeDetails
               (Some surrogateVolumeId))).
Proof.
  intros Hname Hlist Hfirst Hid.
  pose proof (resolve_image_by_name d w images w1 first imageId
                Hname Hlist Hfirst Hid) as Hres.
  destruct (CreateInstance_after_resolve d ctx publicKey surrogateVolumeId
              w imageId w1 _ Hres) as (r & w2 & Hrun).
  exists r, w2, (launch_request d publicKey imageId surrogateVolumeId).
  rewrite Hrun. simpl. repeat split.
  - intros ->. reflexivity.
  - intros Hne. unfold launch_source. simpl.
    by rewrite source_details_boot_volume by by apply nonempty_true.
Qed.

Lemma CreateInstance_by_name_witness :
  exists r w2 req,
    CreateInstance (Fixed.driver (Fixed.config "img" "" false) Fixed.default)
      context_Background "ssh-rsa AAAA" "" tt =
      (r, w2,
       [core.ListImages context_TODO
          (list_images_request
             (Fixed.driver (Fixed.config "img" "" false) Fixed.default));
        core.LaunchInstance context_TODO req]) /\
    count_calls is_ListImages
      (CreateInstance
         (Fixed.driver (Fixed.config "img" "" false) Fixed.default)
         context_Background "ssh-rsa AAAA" "" tt).2 = 1 /\
    ("" = "" ->
     launch_source req =
       Some (core.InstanceSourceViaImageDetails (Some "img-1") (Some 50%Z)))
    /\
    ("" <> "" ->
     launch_source req =
       Some (core.InstanceSourceViaBootVolumeDetails (Some ""))).
Proof.
  apply (CreateInstance_by_name
           (Fixed.driver (Fixed.config "img" "" false) Fixed.default)
           context_Background "ssh-rsa AAAA" "" tt tt
           {| core.ListImages_Items :=
                [Fixed.image "img-1"; Fixed.image "img-2"] |}
           (Fixed.image "img-1") "img-1");
    reflexivity.
Defined.

(** C4, as first stated, fails: the lookup by name returns two images, yet
    with a clone source volume the launch source is that boot volume and
    not the first match's id. *)
Lemma CreateInstance_by_name_counterexample :
  let d := Fixed.driver (Fixed.config "img" "" false) Fixed.default in
  ListImages (computeClient d) context_TODO (list_images_request d) tt
    = (inl {| core.ListImages_Items :=
                [Fixed.image "img-1"; Fixed.image "img-2"] |}, tt) /\
  exists req,
    CreateInstance d context_Background "ssh-rsa AAAA" "bv-9" tt =
      (Ret (inl "i-1"), tt,
       [core.ListImages context_TODO (list_images_request d);
        core.LaunchInstance context_TODO req]) /\
    launch_source req =
      Some (core.InstanceSourceViaBootVolumeDetails (Some "bv-9")) /\
    launch_source req <>
      Some (core.InstanceSourceViaImageDetails (Some "img-1") (Some 50%Z)).
Proof.
  split; [reflexivity |].
  eexists. split; [reflexivity | split; [reflexivity | discriminate]].
Qed.

(** C5 (as amended).  With a non-empty clone source volume id: when no
    base image name is configured, [CreateInstance] issues no image lookup
    and its one call launches the instance from that boot volume; when a
    base image name is configured, the lookup by that name is its first
    call and is issued once; if the lookup returns an image whose first has
    an id, the launch follows, from that boot volume and not from the
    image; if the lookup returns an error, that error is returned and
    nothing is launched. *)
Theorem CreateInstance_from_boot_volume {W} (d : driverOCI W) (ctx : Context)
    (publicKey surrogateVolumeId : string) (w : W) :
  surrogateVolumeId <> "" ->
  let from_volume := fun req =>
    launch_source req =
      Some (core.InstanceSourceViaBootVolumeDetails
              (Some surrogateVolumeId)) in
  (BaseImageName (cfg d) = "" ->
   exists r w' req,
     CreateInstance d ctx publicKey surrogateVolumeId w =
       (r, w', [core.LaunchInstance context_TODO req]) /\
     from_volume req) /\
  (BaseImageName (cfg d) <> "" ->
   exists lreq r w' t',
     core.ListImages_CompartmentId lreq = Some (CompartmentID (cfg d)) /\
     core.ListImages_DisplayName lreq = Some (BaseImageName (cfg d)) /\
     CreateInstance d ctx publicKey surrogateVolumeId w =
       (r, w', core.ListImages context_TODO lreq :: t') /\
     count_calls is_ListImages t' = 0 /\
     (forall images w1 first imageId,
        ListImages (computeClient d) context_TODO lreq w
          = (inl images, w1) ->
        core.ListImages_Items images !! 0 = Some first ->
        core.Image_Id first = Some imageId ->
        exists req,
          t' = [core.LaunchInstance context_TODO req] /\ from_volume req) /\
     (forall msg w1,
        ListImages (computeClient d) context_TODO lreq w = (inr msg, w1) ->
        r = Ret (inr (ErrRemote msg)) /\ w' = w1 /\ t' = [])).
Proof.
  intros Hsur from_volume. apply nonempty_true in Hsur.
  assert (Hsrc : forall imageId,
            from_volume
              (launch_request d publicKey imageId surrogateVolumeId)).
  { intros imageId. unfold from_volume, launch_source. simpl.
    by rewrite source_details_boot_volume. }
  split.
  - intros Hname.
    assert (Hno : nonempty (BaseImageName (cfg d)) = false)
      by (by rewrite Hname).
    destruct (CreateInstance_after_resolve d ctx publicKey surrogateVolumeId
                w _ w _ (resolve_image_by_id d w Hno)) as (r & w' & Hrun).
    exists r, w',
      (launch_request d publicKey (BaseImageID (cfg d)) surrogateVolumeId).
    by rewrite Hrun.
  - intros Hname. apply nonempty_true in Hname.
    destruct (CreateInstance d ctx publicKey surrogateVolumeId w)
      as [[r w'] t] eqn:Hrun.
    destruct (resolve_image d w) as [[r1 w1] t1] eqn:Hres.
    pose proof (resolve_image_trace d w r1 w1 t1 Hname Hres) as ->.
    assert (Hcases : (exists imageId, r1 = Ret (inl imageId)) \/
                     (forall imageId, r1 <> Ret (inl imageId))).
    { destruct r1 as [[imageId | err] | msg |]; eauto; right; done. }
    destruct Hcases as [[imageId ->] | Hno].
    + destruct (CreateInstance_after_resolve d ctx publicKey
                  surrogateVolumeId w imageId w1 _ Hres) as (r' & w2 & Heq).
      rewrite Heq in Hrun. injection Hrun as <- <- <-.
      exists (list_images_request d), r', w2,
        [core.LaunchInstance context_TODO
           (launch_request d publicKey imageId surrogateVolumeId)].
      repeat split.
      * intros images w3 first imageId' _ _ _. eauto.
      * revert Hres. unfold resolve_image, bind, invoke.
        rewrite Hname, H. discriminate.
      * revert Hres. unfold resolve_image, bind, invoke.
        rewrite Hname, H. discriminate.
      * revert Hres. unfold resolve_image, bind, invoke.
        rewrite Hname, H. discriminate.
    + destruct (CreateInstance_resolve_fails d ctx publicKey
                  surrogateVolumeId w r1 w1 _ Hres Hno) as (r' & Heq).
      rewrite Heq in Hrun. injection Hrun as <- <- <-.
      exists (list_images_request d), r', w1, [].
      repeat split.
      * intros images w3 first imageId Hlist Hfirst Hid.
        rewrite (resolve_image_by_name d w images w3 first imageId
                   Hname Hlist Hfirst Hid) in Hres.
        injection Hres as <- <-. by destruct (Hno imageId).
      * revert Heq. unfold CreateInstance, resolve_image, bind, invoke.
        rewrite Hname, H. simpl. by intros [= <- _].
      * revert Hres. unfold resolve_image, bind, invoke.
        rewrite Hname, H. simpl. by intros [= _ <-].
Qed.

Lemma CreateInstance_from_boot_volume_witness :
  (exists r w' req,
     CreateInstance
       (Fixed.driver (Fixed.config "" "img-1" false) Fixed.default)
       context_Background "ssh-rsa AAAA" "bv-9" tt =
       (r, w', [core.LaunchInstance context_TODO req]) /\
     launch_source req =
       Some (core.InstanceSourceViaBootVolumeDetails (Some "bv-9"))) /\
  (exists lreq r w' req,
     core.ListImages_DisplayName lreq = Some "img" /\
     CreateInstance
       (Fixed.driver (Fixed.config "img" "" false) Fixed.default)
       context_Background "ssh-rsa AAAA" "bv-9" tt =
       (r, w', [core.ListImages context_TODO lreq;
                core.LaunchInstance context_TODO req]) /\
     launch_source req =
       Some (core.InstanceSourceViaBootVolumeDetails (Some "bv-9"))).
Proof.
  split.
  - apply (CreateInstance_from_boot_volume
             (Fixed.driver (Fixed.config "" "img-1" false) Fixed.default)
             context_Background "ssh-rsa AAAA" "bv-9" tt);
      [discriminate | reflexivity].
  - destruct (CreateInstance_from_boot_volume
                (Fixed.driver (Fixed.config "img" "" false) Fixed.default)
                context_Background "ssh-rsa AAAA" "bv-9" tt)
      as [_ Hnamed]; [discriminate |].
    destruct Hnamed as (lreq & r & w' & t' & Hc & Hn & Hrun & _ & Hok & _);
      [discriminate |].
    destruct lreq as [compartment name]. simpl in Hc, Hn. subst.
    destruct (Hok {| core.ListImages_Items :=
                       [Fixed.image "img-1"; Fixed.image "img-2"] |}
                tt (Fixed.image "img-1") "img-1" eq_refl eq_refl eq_refl)
      as (req & -> & Hsrc).
    by exists {| core.ListImages_CompartmentId := Some "ocid1.compartment";
                 core.ListImages_DisplayName := Some "img" |}, r, w', req.
Defined.

(** C5, as first stated, fails twice over.  With a clone source volume and
    a base image name both given, the image lookup is issued all the same,
    before the launch from the boot volume; and when that lookup returns an
    error, the error is returned and the instance is not launched at all. *)
Lemma CreateInstance_from_boot_volume_counterexample :
  (let d := Fixed.driver (Fixed.config "img" "" false) Fixed.default in
   "bv-9" <> "" /\
   exists req,
     CreateInstance d context_Background "ssh-rsa AAAA" "bv-9" tt =
       (Ret (inl "i-1"), tt,
        [core.ListImages context_TODO (list_images_request d);
         core.LaunchInstance context_TODO req]) /\
     count_calls is_ListImages
       (CreateInstance d context_Background "ssh-rsa AAAA" "bv-9" tt).2 = 1)
  /\
  (let d := Fixed.driver (Fixed.config "img" "" false)
              {| Fixed.images := inr "TooManyRequests";
                 Fixed.launched := inl (Fixed.instance "i-1");
                 Fixed.attachments := inl [];
                 Fixed.cloned := inl (Fixed.volume "bv-2");
                 Fixed.vnics := inl [];
                 Fixed.vnic := inr "NotFound" |} in
   CreateInstance d context_Background "ssh-rsa AAAA" "bv-9" tt =
     (Ret (inr (ErrRemote "TooManyRequests")), tt,
      [core.ListImages context_TODO (list_images_request d)]) /\
   count_calls is_LaunchInstance
     (CreateInstance d context_Background "ssh-rsa AAAA" "bv-9" tt).2 = 0).
Proof.
  split.
  - split; [discriminate |].
    eexists. split; reflexivity.
  - split; reflexivity.
Qed.

(** ** Boot volume clone *)

(** C6, the defect.  When the instance has no boot volume attachment,
    [CreateBootClone] indexes the empty list: it panics, returning no
    error to its caller; the create call is not reached. *)
Theorem CreateBootClone_no_attachment_panics {W} (d : driverOCI W)
    (ctx : Context) (InstanceId : string) (w w1 : W)
    (BootVolumeDetails : core.ListBootVolumeAttachmentsResponse) :
  ListBootVolumeAttachments (computeClient d) ctx
    (list_boot_volume_attachments_request d InstanceId) w
    = (inl BootVolumeDetails, w1) ->
  core.ListBVA_Items BootVolumeDetails = [] ->
  CreateBootClone d ctx InstanceId w =
    (Panic index_out_of_range, w1,
     [core.ListBootVolumeAttachments ctx
        (list_boot_volume_attachments_request d InstanceId)]) /\
  forall err, (CreateBootClone d ctx InstanceId w).1.1 <> Ret (inr err).
Proof.
  intros Hlist Hnil.
  assert (Hrun : CreateBootClone d ctx InstanceId w =
    (Panic index_out_of_range, w1,
     [core.ListBootVolumeAttachments ctx
        (list_boot_volume_attachments_request d InstanceId)])).
  { unfold CreateBootClone, bind, invoke, index, panic.
    rewrite Hlist, Hnil. reflexivity. }
  split; [done |]. rewrite Hrun. discriminate.
Qed.

Lemma CreateBootClone_no_attachment_panics_witness :
  let d := Fixed.driver (Fixed.config "" "img-1" false)
             {| Fixed.images := inl [];
                Fixed.launched := inl (Fixed.instance "i-1");
                Fixed.attachments := inl [];
                Fixed.cloned := inl (Fixed.volume "bv-2");
                Fixed.vnics := inl [];
                Fixed.vnic := inr "NotFound" |} in
  CreateBootClone d context_Background "i-1" tt =
    (Panic index_out_of_range, tt,
     [core.ListBootVolumeAttachments context_Background
        (list_boot_volume_attachments_request d "i-1")]) /\
  forall err,
    (CreateBootClone d context_Background "i-1" tt).1.1 <> Ret (inr err).
Proof.
  intros d.
  apply (CreateBootClone_no_attachment_panics d context_Background "i-1"
           tt tt {| core.ListBVA_Items := [] |}); reflexivity.
Defined.

(** When an attachment exists, [CreateBootClone] lists the attachments of
    the instance, in the configured availability domain and compartment,
    and then makes one create call: in the same availability domain and
    compartment, of the configured size, cloning the boot volume of the
    first attachment. *)
Lemma CreateBootClone_uses_first_attachment {W} (d : driverOCI W)
    (ctx : Context) (InstanceId : string) (w w1 : W)
    (BootVolumeDetails : core.ListBootVolumeAttachmentsResponse)
    (first : core.BootVolumeAttachment) :
  ListBootVolumeAttachments (computeClient d) ctx
    (list_boot_volume_attachments_request d InstanceId) w
    = (inl BootVolumeDetails, w1) ->
  core.ListBVA_Items BootVolumeDetails !! 0 = Some first ->
  exists r w2 lreq req,
    CreateBootClone d ctx InstanceId w =
      (r, w2,
       [core.ListBootVolumeAttachments ctx lreq;
        core.CreateBootVolume ctx req]) /\
    lreq =
      {| core.ListBVA_AvailabilityDomain := Some (AvailabilityDomain (cfg d));
         core.ListBVA_CompartmentId := Some (CompartmentID (cfg d));
         core.ListBVA_InstanceId := Some InstanceId |} /\
    req =
      {| core.CreateBootVolumeDetails_of :=
           {| core.CreateBV_AvailabilityDomain :=
                Some (AvailabilityDomain (cfg d));
              core.CreateBV_CompartmentId := Some (CompartmentID (cfg d));
              core.CreateBV_SourceDetails :=
                core.BootVolumeSourceFromBootVolumeDetails
                  (core.BVA_BootVolumeId first);
              core.CreateBV_SizeInGBs :=
                Some (BootVolumeSizeInGBs (cfg d)) |} |}.
Proof.
  intros Hlist Hfirst.
  unfold CreateBootClone, bind, invoke, index, deref, ret, panic.
  rewrite Hlist, Hfirst.
  destruct (CreateBootVolume _ _ _ w1) as [[res | msg] w2]; simpl.
  - destruct (core.BootVolume_Id res); simpl;
      do 4 eexists; (split; [reflexivity | split; reflexivity]).
  - do 4 eexists. split; [reflexivity | split; reflexivity].
Qed.

(** ** Instance address *)

(** C8.  [GetInstanceIP], once the interfaces are listed: with none it
    returns the zero-interfaces error; with the private address preferred
    it returns the first interface's private address, whether or not there
    is a public one; with the public address preferred and none present it
    returns an error of its own, not an empty address. *)
Theorem GetInstanceIP_cases {W} (d : driverOCI W) (ctx : Context)
    (id : string) (w w1 : W) (vnics : core.ListVnicAttachmentsResponse) :
  ListVnicAttachments (computeClient d) ctx
    (list_vnic_attachments_request d id) w = (inl vnics, w1) ->
  (core.ListVnic_Items vnics = [] ->
   GetInstanceIP d ctx id w =
     (Ret (inr (ErrorsNew "instance has zero VNICs")), w1,
      [core.ListVnicAttachments ctx (list_vnic_attachments_request d id)]))
  /\
  (forall first vnic w2,
     core.ListVnic_Items vnics !! 0 = Some first ->
     GetVnic (vcnClient d) ctx
       {| core.GetVnic_VnicId := core.VnicAttachment_VnicId first |} w1
       = (inl vnic, w2) ->
     (UsePrivateIP (cfg d) = true ->
      forall ip, core.PrivateIp vnic = Some ip ->
      (GetInstanceIP d ctx id w).1.1 = Ret (inl ip)) /\
     (UsePrivateIP (cfg d) = false ->
      core.PublicIp vnic = None ->
      (GetInstanceIP d ctx id w).1.1 =
        Ret (inr (Errorf "Error getting VNIC Public Ip for: %s"
                         [ArgString id])) /\
      (GetInstanceIP d ctx id w).1.1 <> Ret (inl ""))).
Proof.
  intros Hlist. split.
  - intros Hnil. unfold GetInstanceIP, bind, invoke, ret.
    rewrite Hlist, Hnil. reflexivity.
  - intros first vnic w2 Hfirst Hget.
    assert (Hlen : (length (core.ListVnic_Items vnics) =? 0)%nat = false).
    { destruct (core.ListVnic_Items vnics); [discriminate | reflexivity]. }
    split.
    + intros Hpriv ip Hip.
      unfold GetInstanceIP, bind, invoke, index, deref, ret.
      rewrite Hlist, Hlen, Hfirst, Hget, Hpriv, Hip. reflexivity.
    + intros Hpub Hnone.
      assert (Hrun : (GetInstanceIP d ctx id w).1.1 =
                Ret (inr (Errorf "Error getting VNIC Public Ip for: %s"
                                 [ArgString id]))).
      { unfold GetInstanceIP, bind, invoke, index, deref, ret.
        rewrite Hlist, Hlen, Hfirst, Hget, Hpub, Hnone. reflexivity. }
      split; [done |]. rewrite Hrun. discriminate.
Qed.

Lemma GetInstanceIP_cases_witness :
  let none := {| Fixed.images := inl [];
                 Fixed.launched := inl (Fixed.instance "i-1");
                 Fixed.attachments := inl [];
                 Fixed.cloned := inl (Fixed.volume "bv-2");
                 Fixed.vnics := inl [];
                 Fixed.vnic := inr "NotFound" |} in
  (GetInstanceIP (Fixed.driver (Fixed.config "" "img-1" true) none)
     context_Background "i-1" tt).1.1
    = Ret (inr (ErrorsNew "instance has zero VNICs")) /\
  (GetInstanceIP (Fixed.driver (Fixed.config "" "img-1" true) Fixed.default)
     context_Background "i-1" tt).1.1
    = Ret (inl "10.0.0.2") /\
  (GetInstanceIP (Fixed.driver (Fixed.config "" "img-1" false) Fixed.default)
     context_Background "i-1" tt).1.1
    = Ret (inr (Errorf "Error getting VNIC Public Ip for: %s"
                       [ArgString "i-1"])).
Proof.
  intros none. split; [| split].
  - pose proof (GetInstanceIP_cases
                  (Fixed.driver (Fixed.config "" "img-1" true) none)
                  context_Background "i-1" tt tt
                  {| core.ListVnic_Items := [] |} eq_refl) as [Hzero _].
    by rewrite (Hzero eq_refl).
  - pose proof (GetInstanceIP_cases
                  (Fixed.driver (Fixed.config "" "img-1" true) Fixed.default)
                  context_Background "i-1" tt tt
                  {| core.ListVnic_Items :=
                       [ {| core.VnicAttachment_VnicId := Some "vnic-1" |} ]
                  |} eq_refl) as [_ Hsome].
    exact (proj1 (Hsome {| core.VnicAttachment_VnicId := Some "vnic-1" |}
                    {| core.PrivateIp := Some "10.0.0.2";
                       core.PublicIp := None |} tt eq_refl eq_refl)
             eq_refl "10.0.0.2" eq_refl).
  - pose proof (GetInstanceIP_cases
                  (Fixed.driver (Fixed.config "" "img-1" false) Fixed.default)
                  context_Background "i-1" tt tt
                  {| core.ListVnic_Items :=
                       [ {| core.VnicAttachment_VnicId := Some "vnic-1" |} ]
                  |} eq_refl) as [_ Hsome].
    exact (proj1 (proj2 (Hsome {| core.VnicAttachment_VnicId := Some "vnic-1" |}
                           {| core.PrivateIp := Some "10.0.0.2";
                              core.PublicIp := None |} tt eq_refl eq_refl)
                    eq_refl eq_refl)).
Defined.

(** ** More about the state poller *)

Section PollerRuns.

Context {W : Type} `{World W}.
Variable getResourceState : string -> @Drv W (string + error).
Variable id : string.
Variable waitStates : list string.
Variable terminalState : string.
Variable waitDuration : Duration.

Abbreviation run maxRetries :=
  (poll_loop getResourceState id waitStates terminalState maxRetries
             waitDuration).

(** A run that returns [nil] ends on a fetch that reported the terminal
    state, which is then no waiting state. *)
Lemma poll_loop_nil_sound maxRetries fuel :
  forall i w w' t,
    run maxRetries fuel i w = (Ret None, w', t) ->
    stringSliceContains waitStates terminalState = false /\
    exists w0 cs t0,
      getResourceState id w0 = (Ret (inl terminalState), w', cs) /\
      t = t0 ++ [EvFetch id cs].
Proof.
  induction fuel as [|fuel IH]; intros i w w' t; simpl; [discriminate |].
  destruct (_ || _); [| discriminate].
  destruct (getResourceState id w) as [[[[state | err] | msg |] w1] cs] eqn:Hf;
    try discriminate.
  destruct (stringSliceContains waitStates state) eqn:Hw.
  - destruct (run maxRetries fuel _ _) as [[r2 w2] t2] eqn:Hrec.
    intros [= -> <- <-].
    destruct (IH _ _ _ _ Hrec) as (Hnw & w0 & cs0 & t0 & Hf0 & ->).
    split; [done |].
    by exists w0, cs0, (EvFetch id cs :: EvSleep waitDuration :: t0).
  - destruct (String.eqb_spec state terminalState) as [-> | Hne];
      [| discriminate].
    intros [= <- <-]. split; [done |]. by exists w, cs, [].
Qed.

(** Fetches and sleeps alternate, starting with a fetch; a run ends after
    a sleep or after a fetch. *)
Lemma poll_loop_alternates maxRetries fuel :
  forall i w r w' t,
    run maxRetries fuel i w = (r, w', t) ->
    exists n,
      steps t = rounds n waitDuration \/
      steps t = rounds n waitDuration ++ [Fetch].
Proof.
  induction fuel as [|fuel IH]; intros i w r w' t; simpl.
  - intros [= <- <- <-]. exists 0. by left.
  - destruct (_ || _).
    + destruct (getResourceState id w) as [[[[state | err] | msg |] w1] cs].
      * destruct (stringSliceContains waitStates state).
        -- destruct (run maxRetries fuel _ _) as [[r2 w2] t2] eqn:Hrec.
           intros [= <- <- <-].
           destruct (IH _ _ _ _ _ Hrec) as (n & [Hn | Hn]);
             exists (S n); simpl; rewrite Hn; [by left | by right].
        -- destruct (String.eqb state terminalState);
             intros [= <- <- <-]; exists 0; by right.
      * intros [= <- <- <-]. exists 0. by right.
      * intros [= <- <- <-]. exists 0. by right.
      * intros [= <- <- <-]. exists 0. by right.
    + intros [= <- <- <-]. exists 0. by left.
Qed.

(** From counter [i], a bounded run fetches at most [N - i] times. *)
Lemma poll_loop_fetches_bounded N fuel :
  N <> 0%Z -> (N <= max_int)%Z ->
  forall i w r w' t,
    (0 <= i)%Z ->
    run N fuel i w = (r, w', t) ->
    fetches t <= Z.to_nat (N - i).
Proof.
  intros Hnz Hmax.
  induction fuel as [|fuel IH]; intros i w r w' t Hi; simpl.
  - intros [= <- <- <-]. simpl. lia.
  - destruct (_ || _) eqn:Hc.
    + assert (Hlt : (i < N)%Z).
      { apply orb_true_iff in Hc as [Hz | Hlt]; [| by apply Z.ltb_lt].
        apply Z.eqb_eq in Hz. done. }
      destruct (getResourceState id w) as [[[[state | err] | msg |] w1] cs].
      * destruct (stringSliceContains waitStates state).
        -- destruct (run N fuel _ _) as [[r2 w2] t2] eqn:Hrec.
           intros [= <- <- <-]. simpl.
           rewrite int_add_small in Hrec by lia.
           apply IH in Hrec; lia.
        -- destruct (String.eqb state terminalState);
             intros [= <- <- <-]; simpl; lia.
      * intros [= <- <- <-]. simpl. lia.
      * intros [= <- <- <-]. simpl. lia.
      * intros [= <- <- <-]. simpl. lia.
    + intros [= <- <- <-]. simpl. lia.
Qed.

(** A bounded run that does not end in the exhausted-retries error is
    also the run with no bound. *)
Lemma poll_loop_budget_truncates N fuel :
  forall i j w r w' t,
    run N fuel i w = (r, w', t) ->
    r <> Ret (Some (max_retries_exceeded N terminalState)) ->
    run 0%Z fuel j w = (r, w', t).
Proof.
  induction fuel as [|fuel IH]; intros i j w r w' t; simpl; [done |].
  destruct (_ || _).
  - destruct (getResourceState id w) as [[[[state | err] | msg |] w1] cs];
      try done.
    destruct (stringSliceContains waitStates state); [| done].
    destruct (run N fuel _ _) as [[r2 w2] t2] eqn:Hrec.
    intros [= <- <- <-] Hne.
    by rewrite (IH _ (int_add j 1%Z) _ _ _ _ Hrec Hne).
  - intros [= <- <- <-] Hne. by destruct Hne.
Qed.

(** With no bound, a resource that only ever reports waiting states keeps
    the loop going: however much fuel, the run uses it all, one fetch per
    unit. *)
Lemma poll_loop_stuck fuel :
  (forall w, exists state w1 cs,
     getResourceState id w = (Ret (inl state), w1, cs) /\
     waiting waitStates state) ->
  forall i w, exists w' t,
    run 0%Z fuel i w = (OutOfFuel, w', t) /\
    fetches t = fuel /\
    steps t = rounds fuel waitDuration.
Proof.
  intros Hstuck. induction fuel as [|fuel IH]; intros i w; simpl.
  - by exists w, [].
  - destruct (Hstuck w) as (state & w1 & cs & -> & ->).
    destruct (IH (int_add i 1%Z) (time_Sleep waitDuration w1))
      as (w' & t & -> & Hfetches & Hsteps).
    exists w', (EvFetch id cs :: EvSleep waitDuration :: t).
    simpl. by rewrite Hfetches, Hsteps.
Qed.

End PollerRuns.

(** X1.  [stringSliceContains] answers [true] exactly for the values that
    occur in the slice; in particular never for an empty slice. *)
Theorem stringSliceContains_occurs (slice : list string) (value : string) :
  (stringSliceContains slice value = true <-> In value slice) /\
  (stringSliceContains slice value = false <-> ~ In value slice) /\
  stringSliceContains [] value = false.
Proof.
  pose proof (stringSliceContains_In slice value) as Hin.
  split; [done | split; [| done]].
  rewrite <- Hin.
  destruct (stringSliceContains slice value); split; try done; tauto.
Qed.

(** X2.  When the poller returns [nil], its last action was a fetch that
    reported the terminal state, and the terminal state is not one of the
    waiting states; the world is as that fetch left it. *)
Theorem poller_nil_means_terminal {W} `{World W}
    (getResourceState : string -> @Drv W (string + error)) (id : string)
    (waitStates : list string) (terminalState : string) (maxRetries : int)
    (waitDuration : Duration) (fuel : nat) (w w' : W) (t : list event) :
  waitForResourceToReachState getResourceState id waitStates terminalState
    maxRetries waitDuration fuel w = (Ret None, w', t) ->
  stringSliceContains waitStates terminalState = false /\
  exists w0 cs t0,
    getResourceState id w0 = (Ret (inl terminalState), w', cs) /\
    t = t0 ++ [EvFetch id cs].
Proof. apply poll_loop_nil_sound. Qed.

Lemma poller_nil_means_terminal_witness :
  stringSliceContains ["PROVISIONING"] "RUNNING" = false /\
  exists w0 cs t0,
    Script.getResourceState "i-1" w0 = (Ret (inl "RUNNING"), [], cs) /\
    [EvFetch "i-1" []; EvSleep (5 * Second)%Z; EvFetch "i-1" []]
    = t0 ++ [EvFetch "i-1" cs].
Proof.
  apply (poller_nil_means_terminal Script.getResourceState "i-1"
           ["PROVISIONING"] "RUNNING" 0%Z (5 * Second)%Z 5
           (Script.states ["PROVISIONING"; "RUNNING"]) []).
  reflexivity.
Defined.

(** X3.  With a retry budget [N] other than 0 the poller never fetches
    more than [N] times, whatever the fetch function reports and however
    the call ends (not at all when [N] is negative). *)
Theorem poller_never_exceeds_budget {W} `{World W}
    (getResourceState : string -> @Drv W (string + error)) (id : string)
    (waitStates : list string) (terminalState : string) (N : int)
    (waitDuration : Duration) (fuel : nat) (w w' : W)
    (r : res (option error)) (t : list event) :
  N <> 0%Z -> (N <= max_int)%Z ->
  waitForResourceToReachState getResourceState id waitStates terminalState
    N waitDuration fuel w = (r, w', t) ->
  fetches t <= Z.to_nat N.
Proof.
  intros Hnz Hmax Hrun.
  pose proof (poll_loop_fetches_bounded getResourceState id waitStates
                terminalState waitDuration N fuel Hnz Hmax 0%Z w r w' t
                (Z.le_refl 0) Hrun) as Hle.
  by rewrite Z.sub_0_r in Hle.
Qed.

Lemma poller_never_exceeds_budget_witness :
  fetches [EvFetch "i-1" []; EvSleep (5 * Second)%Z;
           EvFetch "i-1" []; EvSleep (5 * Second)%Z] <= Z.to_nat 2.
Proof.
  apply (poller_never_exceeds_budget Script.getResourceState "i-1"
           ["PROVISIONING"] "RUNNING" 2%Z (5 * Second)%Z 9
           (Script.states ["PROVISIONING"; "PROVISIONING"; "PROVISIONING";
                           "RUNNING"])
           (Script.states ["PROVISIONING"; "RUNNING"])
           (Ret (Some (max_retries_exceeded 2%Z "RUNNING")))).
  - discriminate.
  - unfold max_int. lia.
  - reflexivity.
Defined.

(** X4.  With a negative retry budget the poller gives up at once: it
    returns the exhausted-retries error without a single fetch or sleep,
    and leaves the world untouched. *)
Theorem poller_negative_budget {W} `{World W}
    (getResourceState : string -> @Drv W (string + error)) (id : string)
    (waitStates : list string) (terminalState : string) (N : int)
    (waitDuration : Duration) (fuel : nat) (w : W) :
  (N < 0)%Z ->
  waitForResourceToReachState getResourceState id waitStates terminalState
    N waitDuration (S fuel) w =
    (Ret (Some (max_retries_exceeded N terminalState)), w, []).
Proof.
  intros Hneg. apply poll_loop_exhausted. unfold may_poll.
  apply orb_false_iff. split; [apply Z.eqb_neq | apply Z.ltb_ge]; lia.
Qed.

Lemma poller_negative_budget_witness :
  waitForResourceToReachState Script.getResourceState "i-1"
    ["PROVISIONING"] "RUNNING" (-1)%Z (5 * Second)%Z 1
    (Script.states ["RUNNING"]) =
    (Ret (Some (max_retries_exceeded (-1)%Z "RUNNING")),
     Script.states ["RUNNING"], []).
Proof.
  apply (poller_negative_budget Script.getResourceState "i-1"
           ["PROVISIONING"] "RUNNING" (-1)%Z (5 * Second)%Z 0
           (Script.states ["RUNNING"])).
  lia.
Defined.

(** X5.  With an unlimited budget the poller has no way out of a resource
    that only ever reports waiting states: for every amount of fuel the
    run is still going when the fuel is spent, after as many rounds of
    fetch-then-sleep. *)
Theorem poller_unbounded_wait_never_returns {W} `{World W}
    (getResourceState : string -> @Drv W (string + error)) (id : string)
    (waitStates : list string) (terminalState : string)
    (waitDuration : Duration) (fuel : nat) (w : W) :
  (forall w, exists state w1 cs,
     getResourceState id w = (Ret (inl state), w1, cs) /\
     waiting waitStates state) ->
  exists w' t,
    waitForResourceToReachState getResourceState id waitStates terminalState
      0%Z waitDuration fuel w = (OutOfFuel, w', t) /\
    fetches t = fuel /\
    steps t = rounds fuel waitDuration.
Proof. intros Hstuck. by apply poll_loop_stuck. Qed.

Lemma poller_unbounded_wait_never_returns_witness :
  exists w' t,
    waitForResourceToReachState Stuck.getResourceState "img-1"
      ["PROVISIONING"] "AVAILABLE" 0%Z (5 * Second)%Z 7 tt
    = (OutOfFuel, w', t) /\
    fetches t = 7 /\
    steps t = rounds 7 (5 * Second)%Z.
Proof.
  apply (poller_unbounded_wait_never_returns Stuck.getResourceState "img-1"
           ["PROVISIONING"] "AVAILABLE" (5 * Second)%Z 7 tt).
  intros w. by exists "PROVISIONING", w, [].
Defined.

(** X6.  The retry budget only cuts a wait short: a call with a budget
    that ends otherwise than in the exhausted-retries error ends the same
    way, in the same world and with the same trace, when the budget is
    unlimited. *)
Theorem poller_budget_only_truncates {W} `{World W}
    (getResourceState : string -> @Drv W (string + error)) (id : string)
    (waitStates : list string) (terminalState : string) (N : int)
    (waitDuration : Duration) (fuel : nat) (w w' : W)
    (r : res (option error)) (t : list event) :
  waitForResourceToReachState getResourceState id waitStates terminalState
    N waitDuration fuel w = (r, w', t) ->
  r <> Ret (Some (max_retries_exceeded N terminalState)) ->
  waitForResourceToReachState getResourceState id waitStates terminalState
    0%Z waitDuration fuel w = (r, w', t).
Proof. apply poll_loop_budget_truncates. Qed.

Lemma poller_budget_only_truncates_witness :
  waitForResourceToReachState Script.getResourceState "i-1"
    ["PROVISIONING"] "RUNNING" 0%Z (5 * Second)%Z 9
    (Script.states ["PROVISIONING"; "RUNNING"])
  = (Ret None, [],
     [EvFetch "i-1" []; EvSleep (5 * Second)%Z; EvFetch "i-1" []]).
Proof.
  apply (poller_budget_only_truncates Script.getResourceState "i-1"
           ["PROVISIONING"] "RUNNING" 3%Z (5 * Second)%Z 9
           (Script.states ["PROVISIONING"; "RUNNING"]) [] (Ret None)).
  - reflexivity.
  - discriminate.
Defined.

(** X7.  An error of the fetch function ends the poll at once and is
    returned as it is: after [k] waiting observations and a failing fetch,
    the poller returns that error after [k+1] fetches, with no sleep after
    the last, provided the budget is unlimited or more than [k]. *)
Theorem poller_propagates_fetch_error {W} `{World W}
    (getResourceState : string -> @Drv W (string + error)) (id : string)
    (waitStates : list string) (terminalState : string) (maxRetries : int)
    (waitDuration : Duration) (ws : list string) (w w1 w' : W)
    (err : error) (fuel : nat) :
  (maxRetries <= max_int)%Z ->
  observes getResourceState id waitDuration w ws w1 ->
  Forall (waiting waitStates) ws ->
  fetch_fails getResourceState id w1 err w' ->
  maxRetries = 0%Z \/ (Z.of_nat (length ws) < maxRetries)%Z ->
  length ws < fuel ->
  exists t,
    waitForResourceToReachState getResourceState id waitStates terminalState
      maxRetries waitDuration fuel w = (Ret (Some err), w', t) /\
    fetches t = S (length ws) /\
    steps t = rounds (length ws) waitDuration ++ [Fetch].
Proof. apply poller_returns_fetch_error. Qed.

Lemma poller_propagates_fetch_error_witness :
  exists t,
    waitForResourceToReachState Script.getResourceState "i-1"
      ["PROVISIONING"] "RUNNING" 5%Z (5 * Second)%Z 9
      [inl "PROVISIONING"; inr (ErrRemote "TooManyRequests"); inl "RUNNING"]
    = (Ret (Some (ErrRemote "TooManyRequests")), [inl "RUNNING"], t) /\
    fetches t = 2 /\
    steps t = rounds 1 (5 * Second)%Z ++ [Fetch].
Proof.
  apply (poller_propagates_fetch_error Script.getResourceState "i-1"
           ["PROVISIONING"] "RUNNING" 5%Z (5 * Second)%Z ["PROVISIONING"]
           [inl "PROVISIONING"; inr (ErrRemote "TooManyRequests");
            inl "RUNNING"]
           [inr (ErrRemote "TooManyRequests"); inl "RUNNING"]
           [inl "RUNNING"] (ErrRemote "TooManyRequests") 9).
  - unfold max_int. lia.
  - eapply observes_cons; [reflexivity | apply observes_nil].
  - repeat constructor.
  - by exists [].
  - right. simpl. lia.
  - simpl. lia.
Defined.

(** X8.  In every trace of the poller fetches and sleeps alternate,
    beginning with a fetch: the poller never sleeps before its first fetch
    nor twice in a row, and never fetches twice without a sleep of the
    given delay in between. *)
Theorem poller_trace_alternates {W} `{World W}
    (getResourceState : string -> @Drv W (string + error)) (id : string)
    (waitStates : list string) (terminalState : string) (maxRetries : int)
    (waitDuration : Duration) (fuel : nat) (w w' : W)
    (r : res (option error)) (t : list event) :
  waitForResourceToReachState getResourceState id waitStates terminalState
    maxRetries waitDuration fuel w = (r, w', t) ->
  exists n,
    steps t = rounds n waitDuration \/
    steps t = rounds n waitDuration ++ [Fetch].
Proof. apply poll_loop_alternates. Qed.

Lemma poller_trace_alternates_witness :
  exists n,
    steps [EvFetch "i-1" []; EvSleep (5 * Second)%Z; EvFetch "i-1" []]
      = rounds n (5 * Second)%Z \/
    steps [EvFetch "i-1" []; EvSleep (5 * Second)%Z; EvFetch "i-1" []]
      = rounds n (5 * Second)%Z ++ [Fetch].
Proof.
  apply (poller_trace_alternates Script.getResourceState "i-1"
           ["PROVISIONING"] "RUNNING" 0%Z (5 * Second)%Z 9
           (Script.states ["PROVISIONING"; "RUNNING"]) [] (Ret None)).
  reflexivity.
Defined.

(** ** More about instance creation *)


Section CreateInstanceRuns.

Context {W : Type}.
Variable d : driverOCI W.

(** Every way a call of [CreateInstance] can go: the calls it made, and
    what it came to. *)
Lemma CreateInstance_cases ctx publicKey surrogateVolumeId w r w' t :
  CreateInstance d ctx publicKey surrogateVolumeId w = (r, w', t) ->
  let list := core.ListImages context_TODO (list_images_request d) in
  (t = [list] /\
   ((exists msg, r = Ret (inr (ErrRemote msg))) \/ exists msg, r = Panic msg))
  \/
  (exists imageId,
     let launch :=
       core.LaunchInstance context_TODO
         (launch_request d publicKey imageId surrogateVolumeId) in
     (t = [launch] \/ t = [list; launch]) /\
     ((exists msg, r = Ret (inr (ErrRemote msg))) \/
      (exists msg, r = Panic msg) \/
      (exists id, r = Ret (inl id)))).
Proof.
  unfold CreateInstance, resolve_image, bind, invoke, index, deref, ret,
    panic.
  destruct (nonempty (BaseImageName (cfg d))).
  - destruct (ListImages _ _ _ w) as [[images | msg] w1]; simpl.
    + destruct (core.ListImages_Items images !! 0) as [first |]; simpl.
      * destruct (core.Image_Id first) as [imageId |]; simpl.
        -- destruct (LaunchInstance _ _ _ w1) as [[instance | msg] w2];
             simpl.
           ++ destruct (core.Instance_Id instance) as [id |]; simpl;
                intros [= <- <- <-]; right; exists imageId;
                (split; [by right |]); eauto.
           ++ intros [= <- <- <-]. right. exists imageId.
              split; [by right |]. eauto.
        -- intros [= <- <- <-]. left. eauto.
      * intros [= <- <- <-]. left. eauto.
    + intros [= <- <- <-]. left. eauto.
  - simpl.
    destruct (LaunchInstance _ _ _ w) as [[instance | msg] w2]; simpl.
    + destruct (core.Instance_Id instance) as [id |]; simpl;
        intros [= <- <- <-]; right; exists (BaseImageID (cfg d));
        (split; [by left |]); eauto.
    + intros [= <- <- <-]. right. exists (BaseImageID (cfg d)).
      split; [by left |]. eauto.
Qed.

End CreateInstanceRuns.

(** X10.  [CreateInstance] never hands the context it is given to the
    SDK: every call it makes, the image lookup and the launch, is made
    under [context.TODO()], so cancelling the caller's context cannot stop
    either call. *)
Theorem CreateInstance_ignores_context {W} (d : driverOCI W) (ctx : Context)
    (publicKey surrogateVolumeId : string) (w w' : W)
    (r : res (string + error)) (t : list core.call) :
  CreateInstance d ctx publicKey surrogateVolumeId w = (r, w', t) ->
  Forall (fun c => call_context c = context_TODO) t.
Proof.
  intros Hrun.
  destruct (CreateInstance_cases d _ _ _ _ _ _ _ Hrun)
    as [[-> _] | (imageId & [-> | ->] & _)];
    repeat constructor.
Qed.

Lemma CreateInstance_ignores_context_witness :
  let d := Fixed.driver (Fixed.config "img" "" false) Fixed.default in
  Forall (fun c => call_context c = context_TODO)
    [core.ListImages context_TODO (list_images_request d);
     core.LaunchInstance context_TODO
       (launch_request d "ssh-rsa AAAA" "img-1" "")].
Proof.
  intros d.
  apply (CreateInstance_ignores_context d (context_WithCancel 7)
           "ssh-rsa AAAA" "" tt tt (Ret (inl "i-1"))).
  reflexivity.
Defined.

(** X11.  Whatever the service answers, [CreateInstance] lists images at
    most once and launches at most once; when it returns an id the launch
    was its last call; and an error it returns is always the SDK's own,
    never one made up by the driver. *)
Theorem CreateInstance_calls_and_errors {W} (d : driverOCI W) (ctx : Context)
    (publicKey surrogateVolumeId : string) (w w' : W)
    (r : res (string + error)) (t : list core.call) :
  CreateInstance d ctx publicKey surrogateVolumeId w = (r, w', t) ->
  count_calls is_ListImages t <= 1 /\
  count_calls is_LaunchInstance t <= 1 /\
  (forall id, r = Ret (inl id) ->
     exists t0 req, t = t0 ++ [core.LaunchInstance context_TODO req]) /\
  (forall err, r = Ret (inr err) -> exists msg, err = ErrRemote msg).
Proof.
  intros Hrun.
  destruct (CreateInstance_cases d _ _ _ _ _ _ _ Hrun)
    as [[-> Hr] | (imageId & Ht & Hr)].
  - simpl. repeat split; try lia.
    + intros id ->. by destruct Hr as [[msg ?] | [msg ?]].
    + intros err ->. destruct Hr as [[msg [= ->]] | [msg ?]]; [eauto | done].
  - assert (Herr : forall err, r = Ret (inr err) ->
                     exists msg, err = ErrRemote msg).
    { intros err ->.
      destruct Hr as [[msg [= ->]] | [[msg ?] | [id ?]]]; eauto; done. }
    destruct Ht as [-> | ->]; simpl; repeat split; try lia; try done.
    + intros id _. by exists [], (launch_request d publicKey imageId
                                    surrogateVolumeId).
    + intros id _.
      by exists [core.ListImages context_TODO (list_images_request d)],
             (launch_request d publicKey imageId surrogateVolumeId).
Qed.

Lemma CreateInstance_calls_and_errors_witness :
  let d := Fixed.driver (Fixed.config "img" "" false)
             {| Fixed.images := inr "NotAuthorizedOrNotFound";
                Fixed.launched := inl (Fixed.instance "i-1");
                Fixed.attachments := inl [];
                Fixed.cloned := inl (Fixed.volume "bv-2");
                Fixed.vnics := inl [];
                Fixed.vnic := inr "NotFound" |} in
  let t := [core.ListImages context_TODO (list_images_request d)] in
  let r : res (string + error) :=
    Ret (inr (ErrRemote "NotAuthorizedOrNotFound")) in
  count_calls is_ListImages t <= 1 /\
  count_calls is_LaunchInstance t <= 1 /\
  (forall id, r = Ret (inl id) ->
     exists t0 req, t = t0 ++ [core.LaunchInstance context_TODO req]) /\
  (forall err, r = Ret (inr err) -> exists msg, err = ErrRemote msg).
Proof.
  intros d t r.
  apply (CreateInstance_calls_and_errors d context_Background
           "ssh-rsa AAAA" "" tt tt r t).
  reflexivity.
Defined.

(** X12.  With no base image name configured and no clone source volume,
    [CreateInstance] makes no lookup: its only call is the launch, from
    the configured base image id with the configured boot volume size. *)
Theorem CreateInstance_by_id {W} (d : driverOCI W) (ctx : Context)
    (publicKey : string) (w : W) :
  BaseImageName (cfg d) = "" ->
  exists r w' req,
    CreateInstance d ctx publicKey "" w =
      (r, w', [core.LaunchInstance context_TODO req]) /\
    launch_source req =
      Some (core.InstanceSourceViaImageDetails
              (Some (BaseImageID (cfg d)))
              (Some (BootVolumeSizeInGBs (cfg d)))).
Proof.
  intros Hname.
  assert (Hno : nonempty (BaseImageName (cfg d)) = false)
    by (by rewrite Hname).
  destruct (CreateInstance_after_resolve d ctx publicKey "" w _ w _
              (resolve_image_by_id d w Hno)) as (r & w' & Hrun).
  exists r, w', (launch_request d publicKey (BaseImageID (cfg d)) "").
  by rewrite Hrun.
Qed.

Lemma CreateInstance_by_id_witness :
  exists r w' req,
    CreateInstance
      (Fixed.driver (Fixed.config "" "img-7" false) Fixed.default)
      context_Background "ssh-rsa AAAA" "" tt =
      (r, w', [core.LaunchInstance context_TODO req]) /\
    launch_source req =
      Some (core.InstanceSourceViaImageDetails (Some "img-7") (Some 50%Z)).
Proof.
  apply (CreateInstance_by_id
           (Fixed.driver (Fixed.config "" "img-7" false) Fixed.default)
           context_Background "ssh-rsa AAAA" tt).
  reflexivity.
Defined.

Lemma CreateInstance_no_match_panics_witness :
  let d := Fixed.driver (Fixed.config "img" "" false)
             {| Fixed.images := inl [];
                Fixed.launched := inl (Fixed.instance "i-1");
                Fixed.attachments := inl [];
                Fixed.cloned := inl (Fixed.volume "bv-2");
                Fixed.vnics := inl [];
                Fixed.vnic := inr "NotFound" |} in
  CreateInstance d context_Background "ssh-rsa AAAA" "" tt =
    (Panic index_out_of_range, tt,
     [core.ListImages context_TODO (list_images_request d)]).
Proof.
  intros d.
  apply (CreateInstance_no_match_panics d context_Background
           "ssh-rsa AAAA" "" tt {| core.ListImages_Items := [] |} tt);
    reflexivity.
Defined.

Lemma CreateBootClone_uses_first_attachment_witness :
  let d := Fixed.driver (Fixed.config "" "img-1" false) Fixed.default in
  exists r w2 lreq req,
    CreateBootClone d context_Background "i-1" tt =
      (r, w2,
       [core.ListBootVolumeAttachments context_Background lreq;
        core.CreateBootVolume context_Background req]) /\
    lreq =
      {| core.ListBVA_AvailabilityDomain := Some "AD-1";
         core.ListBVA_CompartmentId := Some "ocid1.compartment";
         core.ListBVA_InstanceId := Some "i-1" |} /\
    req =
      {| core.CreateBootVolumeDetails_of :=
           {| core.CreateBV_AvailabilityDomain := Some "AD-1";
              core.CreateBV_CompartmentId := Some "ocid1.compartment";
              core.CreateBV_SourceDetails :=
                core.BootVolumeSourceFromBootVolumeDetails (Some "bv-1");
              core.CreateBV_SizeInGBs := Some 50%Z |} |}.
Proof.
  intros d.
  apply (CreateBootClone_uses_first_attachment d context_Background "i-1"
           tt tt
           {| core.ListBVA_Items :=
                [ {| core.BVA_Id := Some "bva-1";
                     core.BVA_BootVolumeId := Some "bv-1" |} ] |}
           {| core.BVA_Id := Some "bva-1";
              core.BVA_BootVolumeId := Some "bv-1" |});
    reflexivity.
Defined.

(** ** More about the boot volume clone and the instance address *)

(** X13.  Whatever the service answers, [CreateBootClone] first lists the
    boot volume attachments and creates at most one boot volume; when it
    returns an id its calls were that listing and one create call; and an
    error it returns is always the SDK's own. *)
Theorem CreateBootClone_calls_and_errors {W} (d : driverOCI W)
    (ctx : Context) (InstanceId : string) (w w' : W)
    (r : res (string + error)) (t : list core.call) :
  CreateBootClone d ctx InstanceId w = (r, w', t) ->
  let list :=
    core.ListBootVolumeAttachments ctx
      (list_boot_volume_attachments_request d InstanceId) in
  (exists t1, t = list :: t1) /\
  count_calls is_CreateBootVolume t <= 1 /\
  (forall id, r = Ret (inl id) ->
     exists req, t = [list; core.CreateBootVolume ctx req]) /\
  (forall err, r = Ret (inr err) -> exists msg, err = ErrRemote msg).
Proof.
  unfold CreateBootClone, bind, invoke, index, deref, ret, panic.
  destruct (ListBootVolumeAttachments _ _ _ w) as [[atts | msg] w1]; simpl.
  - destruct (core.ListBVA_Items atts !! 0) as [first |]; simpl.
    + destruct (CreateBootVolume _ _ _ w1) as [[vol | msg] w2]; simpl.
      * destruct (core.BootVolume_Id vol) as [id |]; simpl;
          intros [= <- <- <-]; simpl; repeat split; eauto; done.
      * intros [= <- <- <-]. simpl. repeat split; eauto; try done.
        intros err [= <-]. eauto.
    + intros [= <- <- <-]. simpl. repeat split; eauto; done.
  - intros [= <- <- <-]. simpl. repeat split; eauto; try done.
    intros err [= <-]. eauto.
Qed.

Lemma CreateBootClone_calls_and_errors_witness :
  let d := Fixed.driver (Fixed.config "" "img-1" false) Fixed.default in
  let list :=
    core.ListBootVolumeAttachments context_Background
      (list_boot_volume_attachments_request d "i-1") in
  let t :=
    [list;
     core.CreateBootVolume context_Background
       (create_boot_volume_request d (Some "bv-1"))] in
  let r : res (string + error) := Ret (inl "bv-2") in
  (exists t1, t = list :: t1) /\
  count_calls is_CreateBootVolume t <= 1 /\
  (forall id, r = Ret (inl id) ->
     exists req, t = [list; core.CreateBootVolume context_Background req]) /\
  (forall err, r = Ret (inr err) -> exists msg, err = ErrRemote msg).
Proof.
  intros d list t r.
  apply (CreateBootClone_calls_and_errors d context_Background "i-1"
           tt tt r t).
  reflexivity.
Defined.

(** X14.  When the interface cannot be fetched, [GetInstanceIP] does not
    return the SDK's error as it is: it returns an error of its own that
    wraps it, after exactly two calls, the listing and the get of the
    first interface. *)
Theorem GetInstanceIP_wraps_vnic_error {W} (d : driverOCI W) (ctx : Context)
    (id : string) (w w1 w2 : W) (vnics : core.ListVnicAttachmentsResponse)
    (first : core.VnicAttachment) (msg : string) :
  ListVnicAttachments (computeClient d) ctx
    (list_vnic_attachments_request d id) w = (inl vnics, w1) ->
  core.ListVnic_Items vnics !! 0 = Some first ->
  GetVnic (vcnClient d) ctx
    {| core.GetVnic_VnicId := core.VnicAttachment_VnicId first |} w1
    = (inr msg, w2) ->
  GetInstanceIP d ctx id w =
    (Ret (inr (Errorf "Error getting VNIC details: %s"
                      [ArgError (ErrRemote msg)])),
     w2,
     [core.ListVnicAttachments ctx (list_vnic_attachments_request d id);
      core.GetVnic ctx
        {| core.GetVnic_VnicId := core.VnicAttachment_VnicId first |}]).
Proof.
  intros Hlist Hfirst Hget.
  assert (Hlen : (length (core.ListVnic_Items vnics) =? 0)%nat = false).
  { destruct (core.ListVnic_Items vnics); [discriminate | reflexivity]. }
  unfold GetInstanceIP, bind, invoke, index, ret.
  rewrite Hlist, Hlen, Hfirst, Hget. reflexivity.
Qed.

Lemma GetInstanceIP_wraps_vnic_error_witness :
  let d := Fixed.driver (Fixed.config "" "img-1" false)
             {| Fixed.images := inl [];
                Fixed.launched := inl (Fixed.instance "i-1");
                Fixed.attachments := inl [];
                Fixed.cloned := inl (Fixed.volume "bv-2");
                Fixed.vnics :=
                  inl [ {| core.VnicAttachment_VnicId := Some "vnic-1" |} ];
                Fixed.vnic := inr "NotFound" |} in
  GetInstanceIP d context_Background "i-1" tt =
    (Ret (inr (Errorf "Error getting VNIC details: %s"
                      [ArgError (ErrRemote "NotFound")])),
     tt,
     [core.ListVnicAttachments context_Background
        (list_vnic_attachments_request d "i-1");
      core.GetVnic context_Background
        {| core.GetVnic_VnicId := Some "vnic-1" |}]).
Proof.
  intros d.
  apply (GetInstanceIP_wraps_vnic_error d context_Background "i-1" tt tt tt
           {| core.ListVnic_Items :=
                [ {| core.VnicAttachment_VnicId := Some "vnic-1" |} ] |}
           {| core.VnicAttachment_VnicId := Some "vnic-1" |} "NotFound");
    reflexivity.
Defined.

(** X15.  Once the first interface is fetched, [GetInstanceIP] reads only
    the address it was configured to prefer: with the public address
    preferred it returns the public address when there is one, whether or
    not there is a private one; with the private address preferred and
    none present it panics on the nil pointer, whether or not there is a
    public one. *)
Theorem GetInstanceIP_public_and_nil_private {W} (d : driverOCI W)
    (ctx : Context) (id : string) (w w1 w2 : W)
    (vnics : core.ListVnicAttachmentsResponse)
    (first : core.VnicAttachment) (vnic : core.Vnic) :
  ListVnicAttachments (computeClient d) ctx
    (list_vnic_attachments_request d id) w = (inl vnics, w1) ->
  core.ListVnic_Items vnics !! 0 = Some first ->
  GetVnic (vcnClient d) ctx
    {| core.GetVnic_VnicId := core.VnicAttachment_VnicId first |} w1
    = (inl vnic, w2) ->
  (UsePrivateIP (cfg d) = false ->
   forall ip, core.PublicIp vnic = Some ip ->
   (GetInstanceIP d ctx id w).1 = (Ret (inl ip), w2)) /\
  (UsePrivateIP (cfg d) = true ->
   core.PrivateIp vnic = None ->
   (GetInstanceIP d ctx id w).1 = (Panic nil_dereference, w2)).
Proof.
  intros Hlist Hfirst Hget.
  assert (Hlen : (length (core.ListVnic_Items vnics) =? 0)%nat = false).
  { destruct (core.ListVnic_Items vnics); [discriminate | reflexivity]. }
  split.
  - intros Hpub ip Hip.
    unfold GetInstanceIP, bind, invoke, index, deref, ret.
    rewrite Hlist, Hlen, Hfirst, Hget, Hpub, Hip. reflexivity.
  - intros Hpriv Hnone.
    unfold GetInstanceIP, bind, invoke, index, deref, ret, panic.
    rewrite Hlist, Hlen, Hfirst, Hget, Hpriv, Hnone. reflexivity.
Qed.

Lemma GetInstanceIP_public_and_nil_private_witness :
  let answers :=
    {| Fixed.images := inl [];
       Fixed.launched := inl (Fixed.instance "i-1");
       Fixed.attachments := inl [];
       Fixed.cloned := inl (Fixed.volume "bv-2");
       Fixed.vnics :=
         inl [ {| core.VnicAttachment_VnicId := Some "vnic-1" |} ];
       Fixed.vnic := inl {| core.PrivateIp := None;
                            core.PublicIp := Some "129.0.0.5" |} |} in
  (GetInstanceIP (Fixed.driver (Fixed.config "" "img-1" false) answers)
     context_Background "i-1" tt).1 = (Ret (inl "129.0.0.5"), tt) /\
  (GetInstanceIP (Fixed.driver (Fixed.config "" "img-1" true) answers)
     context_Background "i-1" tt).1 = (Panic nil_dereference, tt).
Proof.
  intros answers. split.
  - exact (proj1 (GetInstanceIP_public_and_nil_private
                    (Fixed.driver (Fixed.config "" "img-1" false) answers)
                    context_Background "i-1" tt tt tt
                    {| core.ListVnic_Items :=
                         [ {| core.VnicAttachment_VnicId := Some "vnic-1" |} ]
                    |}
                    {| core.VnicAttachment_VnicId := Some "vnic-1" |}
                    {| core.PrivateIp := None;
                       core.PublicIp := Some "129.0.0.5" |}
                    eq_refl eq_refl eq_refl)
             eq_refl "129.0.0.5" eq_refl).
  - exact (proj2 (GetInstanceIP_public_and_nil_private
                    (Fixed.driver (Fixed.config "" "img-1" true) answers)
                    context_Background "i-1" tt tt tt
                    {| core.ListVnic_Items :=
                         [ {| core.VnicAttachment_VnicId := Some "vnic-1" |} ]
                    |}
                    {| core.VnicAttachment_VnicId := Some "vnic-1" |}
                    {| core.PrivateIp := None;
                       core.PublicIp := Some "129.0.0.5" |}
                    eq_refl eq_refl eq_refl)
             eq_refl eq_refl).
Defined.

(** ** Attach, detach, credentials *)

(** X16.  Attach and detach compose: the attachment id [AttachBootClone]
    returns is the id the service gave the new attachment (not the volume
    id), and [DetachBootClone] called with it returns that same id once
    the service has accepted the detach. *)
Theorem attach_then_detach {W} (c : ComputeClientRest W) (ctx : Context)
    (InstanceId VolumeId a : string) (w w1 w2 : W)
    (attachment : core.VolumeAttachment) (u : unit) :
  let req :=
    {| rest.AttachVolumeDetails_of :=
         rest.AttachParavirtualizedVolumeDetails
           (Some VolumeId) (Some InstanceId) |} in
  AttachVolume c ctx req w = (inl attachment, w1) ->
  core.VolumeAttachment_Id attachment = Some a ->
  DetachVolume c ctx (Some a) w1 = (inl u, w2) ->
  AttachBootClone c ctx InstanceId VolumeId w =
    (Ret (inl a), w1, [rest.AttachVolume ctx req]) /\
  DetachBootClone c ctx a w1 =
    (Ret (inl a), w2, [rest.DetachVolume ctx (Some a)]).
Proof.
  intros req Hattach Hid Hdetach. split.
  - unfold AttachBootClone, act_bind, act_invoke, act_deref, act_ret.
    fold req. rewrite Hattach, Hid. reflexivity.
  - unfold DetachBootClone, act_bind, act_invoke, act_ret.
    rewrite Hdetach. reflexivity.
Qed.

Lemma attach_then_detach_witness :
  let c := FixedRest.compute
             (inl (FixedRest.attachment (Some "att-1")))
             (inr "NotFound") in
  AttachBootClone c context_Background "i-1" "bv-2" tt =
    (Ret (inl "att-1"), tt,
     [rest.AttachVolume context_Background
        {| rest.AttachVolumeDetails_of :=
             rest.AttachParavirtualizedVolumeDetails
               (Some "bv-2") (Some "i-1") |}]) /\
  DetachBootClone c context_Background "att-1" tt =
    (Ret (inl "att-1"), tt,
     [rest.DetachVolume context_Background (Some "att-1")]).
Proof.
  intros c.
  apply (attach_then_detach c context_Background "i-1" "bv-2" "att-1"
           tt tt tt (FixedRest.attachment (Some "att-1")) tt);
    reflexivity.
Defined.

(** X17.  [AttachBootClone] depends on the service naming the attachment:
    when the attach call succeeds but the attachment carries no id, the
    function panics on the nil pointer after the volume has been
    attached. *)
Theorem AttachBootClone_without_id_panics {W} (c : ComputeClientRest W)
    (ctx : Context) (InstanceId VolumeId : string) (w w1 : W)
    (attachment : core.VolumeAttachment) :
  let req :=
    {| rest.AttachVolumeDetails_of :=
         rest.AttachParavirtualizedVolumeDetails
           (Some VolumeId) (Some InstanceId) |} in
  AttachVolume c ctx req w = (inl attachment, w1) ->
  core.VolumeAttachment_Id attachment = None ->
  AttachBootClone c ctx InstanceId VolumeId w =
    (Panic nil_dereference, w1, [rest.AttachVolume ctx req]).
Proof.
  intros req Hattach Hid.
  unfold AttachBootClone, act_bind, act_invoke, act_deref.
  fold req. rewrite Hattach, Hid. reflexivity.
Qed.

Lemma AttachBootClone_without_id_panics_witness :
  let c := FixedRest.compute (inl (FixedRest.attachment None))
                             (inr "NotFound") in
  AttachBootClone c context_Background "i-1" "bv-2" tt =
    (Panic nil_dereference, tt,
     [rest.AttachVolume context_Background
        {| rest.AttachVolumeDetails_of :=
             rest.AttachParavirtualizedVolumeDetails
               (Some "bv-2") (Some "i-1") |}]).
Proof.
  intros c.
  apply (AttachBootClone_without_id_panics c context_Background "i-1" "bv-2"
           tt tt (FixedRest.attachment None));
    reflexivity.
Defined.

(** X18.  [GetInstanceInitialCredentials], once the service has answered:
    it returns the user name and the password when both are present, and
    panics on the nil pointer when either is missing. *)
Theorem GetInstanceInitialCredentials_cases {W} (c : ComputeClientRest W)
    (ctx : Context) (id : string) (w w1 : W)
    (credentials : rest.InstanceCredentials) :
  GetWindowsInstanceInitialCredentials c ctx (Some id) w
    = (inl credentials, w1) ->
  let t := [rest.GetWindowsInstanceInitialCredentials ctx (Some id)] in
  (forall username password,
     rest.Username credentials = Some username ->
     rest.Password credentials = Some password ->
     GetInstanceInitialCredentials c ctx id w =
       (Ret (inl (username, password)), w1, t)) /\
  (rest.Username credentials = None \/ rest.Password credentials = None ->
   GetInstanceInitialCredentials c ctx id w = (Panic nil_dereference, w1, t)).
Proof.
  intros Hget t. split.
  - intros username password Hu Hp.
    unfold GetInstanceInitialCredentials, act_bind, act_invoke, act_deref,
      act_ret.
    rewrite Hget, Hu, Hp. reflexivity.
  - intros Hnone.
    unfold GetInstanceInitialCredentials, act_bind, act_invoke, act_deref,
      act_ret.
    rewrite Hget.
    destruct (rest.Username credentials) as [username |]; [| reflexivity].
    destruct Hnone as [? | ->]; [done | reflexivity].
Qed.

Lemma GetInstanceInitialCredentials_cases_witness :
  GetInstanceInitialCredentials
    (FixedRest.compute (inr "NotFound")
       (inl {| rest.Username := Some "opc"; rest.Password := Some "s3cret" |}))
    context_Background "i-1" tt =
    (Ret (inl ("opc", "s3cret")), tt,
     [rest.GetWindowsInstanceInitialCredentials context_Background
        (Some "i-1")]) /\
  GetInstanceInitialCredentials
    (FixedRest.compute (inr "NotFound")
       (inl {| rest.Username := Some "opc"; rest.Password := None |}))
    context_Background "i-1" tt =
    (Panic nil_dereference, tt,
     [rest.GetWindowsInstanceInitialCredentials context_Background
        (Some "i-1")]).
Proof.
  split.
  - exact (proj1 (GetInstanceInitialCredentials_cases
                    (FixedRest.compute (inr "NotFound")
                       (inl {| rest.Username := Some "opc";
                               rest.Password := Some "s3cret" |}))
                    context_Background "i-1" tt tt
                    {| rest.Username := Some "opc";
                       rest.Password := Some "s3cret" |} eq_refl)
             "opc" "s3cret" eq_refl eq_refl).
  - exact (proj2 (GetInstanceInitialCredentials_cases
                    (FixedRest.compute (inr "NotFound")
                       (inl {| rest.Username := Some "opc";
                               rest.Password := None |}))
                    context_Background "i-1" tt tt
                    {| rest.Username := Some "opc";
                       rest.Password := None |} eq_refl)
             (or_intror eq_refl)).
Defined.

(** ** Teardown, and the context every call is made under *)

(** X19.  The teardown operations cannot panic: whatever the service
    answers, [DetachBootClone], [DeleteImage], [TerminateInstance] and
    [DeleteBootVolume] return after exactly one SDK call, with the SDK's
    error as it is when the call failed, and else with [nil] (for the
    detach, with the attachment id it was given). *)
Theorem teardown_never_panics {W} (c : ComputeClientRest W)
    (b : BlockstorageClientRest W) (ctx : Context) (id : string) (w : W) :
  (exists w',
     DetachBootClone c ctx id w =
       (Ret (match (DetachVolume c ctx (Some id) w).1 with
             | inl _ => inl id
             | inr msg => inr (ErrRemote msg)
             end), w', [rest.DetachVolume ctx (Some id)])) /\
  (exists w',
     DeleteImage c ctx id w =
       (Ret (match (SDK_DeleteImage c ctx (Some id) w).1 with
             | inl _ => None
             | inr msg => Some (ErrRemote msg)
             end), w', [rest.DeleteImage ctx (Some id)])) /\
  (exists w',
     TerminateInstance c ctx id w =
       (Ret (match (SDK_TerminateInstance c ctx (Some id) w).1 with
             | inl _ => None
             | inr msg => Some (ErrRemote msg)
             end), w', [rest.TerminateInstance ctx (Some id)])) /\
  (exists w',
     DeleteBootVolume b ctx id w =
       (Ret (match (SDK_DeleteBootVolume b ctx (Some id) w).1 with
             | inl _ => None
             | inr msg => Some (ErrRemote msg)
             end), w', [rest.DeleteBootVolume ctx (Some id)])).
Proof.
  unfold DetachBootClone, DeleteImage, TerminateInstance, DeleteBootVolume,
    act_bind, act_invoke, act_ret, error_of.
  repeat split.
  - destruct (DetachVolume c ctx (Some id) w) as [[u | msg] w']; eauto.
  - destruct (SDK_DeleteImage c ctx (Some id) w) as [[u | msg] w']; eauto.
  - destruct (SDK_TerminateInstance c ctx (Some id) w) as [[u | msg] w'];
      eauto.
  - destruct (SDK_DeleteBootVolume b ctx (Some id) w) as [[u | msg] w'];
      eauto.
Qed.

Section ContextFacts.

Context {W : Type} `{World W}.

(** A property of all calls made by the fetch function holds of all calls
    made in the fetches of a poll. *)
Lemma poll_loop_fetched_calls (P : core.call -> Prop)
    (f : string -> @Drv W (string + error)) id waitStates terminalState
    maxRetries delay :
  (forall w, Forall P (f id w).2) ->
  forall fuel i w,
    Forall P (fetched_calls
                (poll_loop f id waitStates terminalState maxRetries delay
                           fuel i w).2).
Proof.
  intros Hf. induction fuel as [|fuel IH]; intros i w; simpl; [constructor |].
  destruct (_ || _); [| constructor].
  specialize (Hf w).
  destruct (f id w) as [[[[state | err] | msg |] w1] cs]; simpl in *;
    try (rewrite app_nil_r; exact Hf).
  destruct (stringSliceContains waitStates state).
  - specialize (IH (int_add i 1%Z) (time_Sleep delay w1)).
    destruct (poll_loop _ _ _ _ _ _ fuel _ _) as [[r2 w2] t2]. simpl in *.
    apply Forall_app. by split.
  - destruct (String.eqb state terminalState); simpl;
      rewrite app_nil_r; exact Hf.
Qed.

Lemma state_of_calls {A} c (op : @remote W A) L w :
  (state_of c op L w).2 = [c].
Proof.
  unfold state_of, bind, invoke, ret. by destruct (op w) as [[a | msg] w1].
Qed.

End ContextFacts.

(** X20.  [CreateBootClone], [GetInstanceIP], the four wait operations
    (in every get they make, however long they poll), [AttachBootClone],
    [DetachBootClone], [DeleteImage], [GetInstanceInitialCredentials],
    [TerminateInstance] and [DeleteBootVolume] make each of their SDK calls
    under the context they were given. *)
Theorem caller_context_reaches_every_call {W} `{World W} (d : driverOCI W)
    (c : ComputeClientRest W) (b : BlockstorageClientRest W)
    (ctx : Context) (id other : string) (waitStates : list string)
    (terminalState : string) (fuel : nat) (w : W) :
  let under := fun call => call_context call = ctx in
  let under' := fun call => rest.call_context call = ctx in
  Forall under (CreateBootClone d ctx id w).2 /\
  Forall under (GetInstanceIP d ctx id w).2 /\
  Forall (fun run : wait_run W => Forall under (fetched_calls (run fuel w).2))
         (wait_operations d ctx id waitStates terminalState) /\
  Forall under' (AttachBootClone c ctx id other w).2 /\
  Forall under' (DetachBootClone c ctx id w).2 /\
  Forall under' (DeleteImage c ctx id w).2 /\
  Forall under' (GetInstanceInitialCredentials c ctx id w).2 /\
  Forall under' (TerminateInstance c ctx id w).2 /\
  Forall under' (DeleteBootVolume b ctx id w).2.
Proof.
  intros under under'.
  split; [| split; [| split; [| split; [| split; [| split; [| split;
    [| split]]]]]]].
  - unfold CreateBootClone, bind, invoke, index, deref, ret, panic.
    destruct (ListBootVolumeAttachments _ _ _ w) as [[atts | msg] w1];
      simpl; [| by repeat constructor].
    destruct (core.ListBVA_Items atts !! 0) as [first |]; simpl;
      [| by repeat constructor].
    destruct (CreateBootVolume _ _ _ w1) as [[vol | msg] w2]; simpl;
      [| by repeat constructor].
    destruct (core.BootVolume_Id vol); simpl; by repeat constructor.
  - unfold GetInstanceIP, bind, invoke, index, deref, ret, panic.
    destruct (ListVnicAttachments _ _ _ w) as [[vnics | msg] w1];
      simpl; [| by repeat constructor].
    destruct (length _ =? 0)%nat; simpl; [by repeat constructor |].
    destruct (core.ListVnic_Items vnics !! 0) as [first |]; simpl;
      [| by repeat constructor].
    destruct (GetVnic _ _ _ w1) as [[vnic | msg] w2]; simpl;
      [| by repeat constructor].
    destruct (UsePrivateIP (cfg d)).
    + destruct (core.PrivateIp vnic); simpl; by repeat constructor.
    + destruct (core.PublicIp vnic); simpl; by repeat constructor.
  - unfold wait_operations.
    do 4 (constructor;
          [apply poll_loop_fetched_calls; intros w0;
           unfold image_state, instance_state, boot_volume_state,
             volume_attachment_state;
           rewrite state_of_calls; by repeat constructor |]).
    constructor.
  - unfold AttachBootClone, act_bind, act_invoke, act_deref, act_ret.
    destruct (AttachVolume _ _ _ w) as [[att | msg] w1]; simpl;
      [| by repeat constructor].
    destruct (core.VolumeAttachment_Id att); simpl; by repeat constructor.
  - unfold DetachBootClone, act_bind, act_invoke, act_ret.
    destruct (DetachVolume _ _ _ w) as [[u | msg] w1]; simpl;
      by repeat constructor.
  - unfold DeleteImage, act_bind, act_invoke, act_ret.
    destruct (SDK_DeleteImage _ _ _ w) as [[u | msg] w1]; simpl;
      by repeat constructor.
  - unfold GetInstanceInitialCredentials, act_bind, act_invoke, act_deref,
      act_ret.
    destruct (GetWindowsInstanceInitialCredentials _ _ _ w)
      as [[cr | msg] w1]; simpl; [| by repeat constructor].
    destruct (rest.Username cr); simpl; [| by repeat constructor].
    destruct (rest.Password cr); simpl; by repeat constructor.
  - unfold TerminateInstance, act_bind, act_invoke, act_ret.
    destruct (SDK_TerminateInstance _ _ _ w) as [[u | msg] w1]; simpl;
      by repeat constructor.
  - unfold DeleteBootVolume, act_bind, act_invoke, act_ret.
    destruct (SDK_DeleteBootVolume _ _ _ w) as [[u | msg] w1]; simpl;
      by repeat constructor.
Qed.

(** ** The image wait *)

(** X21.  [WaitForImageCreation] waits through any number of PROVISIONING
    reports, with no limit; it then returns [nil] if the image is AVAILABLE,
    and for any other state (IMPORTING, DISABLED, DELETED, ...) the
    unexpected-state error naming that state.  Either way it has made one
    get per report. *)
Theorem WaitForImageCreation_outcome {W} `{World W} (d : driverOCI W)
    (ctx : Context) (id : string) (ws : list string) (w w1 w' : W)
    (image : core.Image) (fuel : nat) :
  observes (image_state d ctx id) id (5 * Second)%Z w ws w1 ->
  Forall (fun s => s = "PROVISIONING") ws ->
  GetImage (computeClient d) ctx (Some id) w1 = (inl image, w') ->
  length ws < fuel ->
  let state := core.Image_LifecycleState image in
  (state = "AVAILABLE" ->
   exists t,
     WaitForImageCreation d ctx id fuel w = (Ret None, w', t) /\
     fetches t = S (length ws)) /\
  (state <> "AVAILABLE" -> state <> "PROVISIONING" ->
   exists t,
     WaitForImageCreation d ctx id fuel w =
       (Ret (Some (unexpected_state state ["PROVISIONING"] "AVAILABLE")),
        w', t) /\
     fetches t = S (length ws)).
Proof.
  intros Hobs Hall Hget Hfuel state.
  assert (Hwait : Forall (waiting ["PROVISIONING"]) ws).
  { eapply Forall_impl; [exact Hall |]. by intros s ->. }
  destruct (poll_loop_observes (image_state d ctx id) id ["PROVISIONING"]
              "AVAILABLE" 0%Z (5 * Second)%Z w ws w1 Hobs Hwait 0%Z
              (or_introl eq_refl))
    as (t0 & _ & Hfetches & Hrun).
  assert (Hf : image_state d ctx id id w1 =
                 (Ret (inl state), w', [core.GetImage ctx (Some id)])).
  { unfold image_state. by apply state_of_ok. }
  unfold WaitForImageCreation, waitForResourceToReachState.
  replace fuel with (length ws + S (fuel - S (length ws))) by lia.
  rewrite Hrun. split.
  - intros Havail. rewrite Havail in Hf.
    rewrite (poll_loop_terminal _ _ ["PROVISIONING"] _ 0%Z _ _ _ _ _ _
               (may_poll_unlimited 0%Z _ eq_refl) Hf eq_refl).
    eexists. split; [reflexivity |].
    rewrite fetches_app, Hfetches. simpl. lia.
  - intros Hna Hnp.
    assert (Hnw : stringSliceContains ["PROVISIONING"] state = false).
    { cbn [stringSliceContains].
      destruct (String.eqb_spec "PROVISIONING" state) as [Heq | _];
        [by destruct Hnp | done]. }
    rewrite (poll_loop_unexpected _ _ ["PROVISIONING"] _ 0%Z _ _ _ _ _ _ _
               (may_poll_unlimited 0%Z _ eq_refl) Hf Hnw Hna).
    eexists. split; [reflexivity |].
    rewrite fetches_app, Hfetches. simpl. lia.
Qed.

Lemma WaitForImageCreation_outcome_witness :
  let ctx := context_Background in
  let w0 := {| Cancel.now := 0; Cancel.cancelled_at := 0;
               Cancel.states := ["PROVISIONING"; "IMPORTING"] |} in
  let w' := {| Cancel.now := 5 * Second; Cancel.cancelled_at := 0;
               Cancel.states := [] |} in
  ("IMPORTING" = "AVAILABLE" ->
   exists t,
     WaitForImageCreation Cancel.driver ctx "img-2" 5 w0
       = (Ret None, w', t) /\
     fetches t = 2) /\
  ("IMPORTING" <> "AVAILABLE" -> "IMPORTING" <> "PROVISIONING" ->
   exists t,
     WaitForImageCreation Cancel.driver ctx "img-2" 5 w0 =
       (Ret (Some (unexpected_state "IMPORTING" ["PROVISIONING"]
                     "AVAILABLE")), w', t) /\
     fetches t = 2).
Proof.
  intros ctx w0 w'.
  apply (WaitForImageCreation_outcome Cancel.driver ctx "img-2"
           ["PROVISIONING"] w0
           {| Cancel.now := 5 * Second; Cancel.cancelled_at := 0;
              Cancel.states := ["IMPORTING"] |}
           w'
           {| core.Image_Id := None; core.Image_DisplayName := None;
              core.Image_LifecycleState := "IMPORTING" |} 5).
  - eapply observes_cons; [reflexivity | apply observes_nil].
  - repeat constructor.
  - reflexivity.
  - simpl. lia.
Defined.
